(** * Behavioural profiling and anomaly scoring: the [BehaviorManager]

    A shallow embedding of [backend/behavioral/behavior_manager.py].

    - Python dictionaries are finite maps ([gmap]); the event records handed
      in by a caller are objects of a heap, and a batch is a list of
      addresses, so that the in-place tagging of events and the references
      kept in the behaviour buffer alias as they do in Python.
    - Python numbers are the finite ones, as rationals ([Q]), with exact
      arithmetic; division by zero raises. The rounding of floats, their
      overflow to [inf] and the value [nan] are not represented.
    - Exceptions are an explicit result type; every [try]/[except] of the
      source is a [match] on it.
    - The wall clock and the scikit-learn estimators are inputs: a record of
      clock readings per call, and a record of estimator operations. *)

From Stdlib Require Import QArith Qminmax Lqa.
From stdpp Require Import gmap strings list fin_maps.

Local Open Scope string_scope.

(** ** Python values, truthiness and comparison *)

(** The values an event or a device snapshot holds: [None], a finite number
    (an [int] or a finite [float], by its value) or a string. *)
Inductive pyval :=
  | PNone
  | PNum (q : Q)
  | PStr (s : string).

Abbreviation dict := (gmap string pyval).
Abbreviation loc := nat (only parsing).

(** [bool(v)]: [None], zero and the empty string are falsy. *)
Definition truthy (v : pyval) : bool :=
  match v with
  | PNone => false
  | PNum q => negb (Qeq_bool q 0)
  | PStr s => negb (String.eqb s "")
  end.

(** [a == b] on values; on the finite numbers of [pyval] it compares the
    values, and is reflexive (the float [nan], unequal to itself, is not a
    [pyval]). *)
Definition py_eq (a b : pyval) : bool :=
  match a, b with
  | PNone, PNone => true
  | PNum x, PNum y => Qeq_bool x y
  | PStr s, PStr t => String.eqb s t
  | _, _ => false
  end.

(** [d.get(k)], which is [None] for a missing key. *)
Definition dict_get (d : dict) (k : string) : pyval := default PNone (d !! k).

(** [d.get(k) == s] for a string literal [s]. *)
Definition get_is (d : dict) (k s : string) : bool := py_eq (dict_get d k) (PStr s).

(** [max(a, b)] and [min(a, b)]: the first argument wins a tie. *)
Definition py_max (a b : Q) : Q := if Qle_bool b a then a else b.
Definition py_min (a b : Q) : Q := if Qle_bool a b then a else b.

(** [a > b]. *)
Definition Qgtb (a b : Q) : bool := negb (Qle_bool a b).

(** [max(l)] of a non-empty list, seeded with its head. *)
Definition py_max_list (x : Q) (l : list Q) : Q := fold_left py_max l x.

(** [l[-n:]] for a positive [n]. *)
Definition last_n {A} (n : nat) (l : list A) : list A := drop (length l - n) l.

(** ** Exceptions *)

Inductive exn :=
  | ZeroDivisionError
  | TypeError
  | KeyError
  | EstimatorError.

Inductive result (A : Type) :=
  | Ok (a : A)
  | Raise (e : exn).
Arguments Ok {A} a.
Arguments Raise {A} e.

(** Sequencing: the first exception aborts what follows. *)
Global Instance result_bind : MBind result := fun A B k r =>
  match r with
  | Ok a => k a
  | Raise e => Raise e
  end.

(** ** The clock readings of one call *)

Record clock := {
  clk_created : string;        (* [datetime.now().isoformat()] in [create_user_profile] *)
  clk_result : string;         (* the reading stored in the result record *)
  clk_event : nat -> string;   (* the reading taken for the i-th event or finding *)
  clk_time : nat -> Q          (* [time.time()] evaluated at the i-th event *)
}.

(** ** Feature extraction *)

Record keystroke_features := {
  typing_speed : Q;
  f_keystroke_intervals : list Q;
  error_count : Q;
  special_key_usage : Q
}.

Record mouse_features := {
  movement_speed : Q;
  click_count : nat;
  scroll_count : nat;
  f_movement_variance : Q
}.

(** The object at an address; an address never written holds an empty dict. *)
Definition deref (h : gmap nat dict) (l : loc) : dict := default ∅ (h !! l).

(** The [keydown_times] loop: the timestamps of the [keydown] events, with
    [time.time()] for an event without one. *)
Fixpoint keydown_times (clk : clock) (i : nat) (events : list dict) : list pyval :=
  match events with
  | [] => []
  | e :: rest =>
      if get_is e "type" "keydown"
      then default (PNum (clk_time clk i)) (e !! "timestamp") :: keydown_times clk (S i) rest
      else keydown_times clk (S i) rest
  end.

(** [a - b]: only numbers subtract. The difference is the exact one, which is
    what Python gives for ints, and for floats up to rounding and overflow. *)
Definition py_sub (a b : pyval) : result Q :=
  match a, b with
  | PNum x, PNum y => Ok (x - y)%Q
  | _, _ => Raise TypeError
  end.

(** [[t[i] - t[i-1] for i in range(1, len(t))]], given [t[0]]. *)
Fixpoint intervals_from (prev : pyval) (times : list pyval) : result (list Q) :=
  match times with
  | [] => Ok []
  | t :: rest =>
      d ← py_sub t prev;
      ds ← intervals_from t rest;
      Ok (d :: ds)
  end.

(** [None] is the empty dict [{}] returned for an empty batch. *)
Definition _extract_keystroke_features (clk : clock) (events : list dict)
  : result (option keystroke_features) :=
  match events with
  | [] => Ok None
  | _ =>
      match keydown_times clk 0 events with
      | t0 :: (_ :: _) as rest =>
          intervals ← intervals_from t0 rest;
          match intervals with
          | [] => Ok (Some {| typing_speed := inject_Z (Z.of_nat (length events)) / 1;
                              f_keystroke_intervals := [];
                              error_count := 0; special_key_usage := 0 |})
          | d :: ds =>
              let mx := py_max_list d ds in
              if Qeq_bool mx 0 then Raise ZeroDivisionError
              else Ok (Some {| typing_speed := inject_Z (Z.of_nat (length events)) / mx;
                               f_keystroke_intervals := intervals;
                               error_count := 0; special_key_usage := 0 |})
          end
      | _ => Ok (Some {| typing_speed := 0; f_keystroke_intervals := [];
                         error_count := 0; special_key_usage := 0 |})
      end
  end.

(** The counting loop of [_extract_mouse_features]. *)
Fixpoint count_events (events : list dict) (f : mouse_features) : mouse_features :=
  match events with
  | [] => f
  | e :: rest =>
      count_events rest
        (if get_is e "type" "click" then
           {| movement_speed := movement_speed f; click_count := S (click_count f);
              scroll_count := scroll_count f; f_movement_variance := f_movement_variance f |}
         else if get_is e "type" "scroll" then
           {| movement_speed := movement_speed f; click_count := click_count f;
              scroll_count := S (scroll_count f); f_movement_variance := f_movement_variance f |}
         else f)
  end.

Definition _extract_mouse_features (events : list dict) : option mouse_features :=
  match events with
  | [] => None
  | _ => Some (count_events events
                 {| movement_speed := 0; click_count := 0; scroll_count := 0;
                    f_movement_variance := 0 |})
  end.

(** ** Profiles and the manager's state *)

Record keystroke_patterns := {
  avg_typing_speed : Q;
  keystroke_intervals : list Q;
  error_rate : Q;
  common_sequences : list pyval
}.

Record mouse_patterns := {
  avg_movement_speed : Q;
  click_patterns : list nat;
  scroll_patterns : list pyval;
  movement_variance : Q
}.

Record profile := {
  user_id : string;
  created_at : string;
  p_keystroke : keystroke_patterns;
  p_mouse : mouse_patterns;
  device_patterns : dict;
  baseline_established : bool;
  anomaly_threshold : Q
}.

(** A scikit-learn estimator object: fresh, or fitted on training rows. *)
Inductive estimator :=
  | Unfitted
  | Fitted (rows : list (list Q)).

(** The four dictionaries of [BehaviorManager] keyed by user id, and the heap
    of event objects the buffer refers to. A model or scaler entry is
    [Some None] when it holds Python's [None]. *)
Record manager := {
  user_profiles : gmap string profile;
  anomaly_models : gmap string (option estimator);
  scalers : gmap string (option estimator);
  behavior_buffer : gmap string (list loc);
  heap : gmap nat dict
}.

Definition buffer_size : nat := 50.

(** [BehaviorManager()] over the caller's objects. *)
Definition new_manager (h : gmap nat dict) : manager :=
  {| user_profiles := ∅; anomaly_models := ∅; scalers := ∅;
     behavior_buffer := ∅; heap := h |}.

(** What the module imports, and what the estimators do. The truth value of
    an estimator object, [transform], [predict] and [decision_function] are
    the library's; each may raise. *)
Record backend := {
  SKLEARN_AVAILABLE : bool;
  numpy_available : bool;
  model_truth : estimator -> result bool;
  scaler_truth : estimator -> result bool;
  scaler_transform : estimator -> list Q -> result (list Q);
  model_predict : estimator -> list Q -> result Z;
  model_decision_function : estimator -> list Q -> result Q
}.

Definition new_profile (uid : string) (now : string) : profile :=
  {| user_id := uid;
     created_at := now;
     p_keystroke := {| avg_typing_speed := 0; keystroke_intervals := [];
                       error_rate := 0; common_sequences := [] |};
     p_mouse := {| avg_movement_speed := 0; click_patterns := [];
                   scroll_patterns := []; movement_variance := 0 |};
     device_patterns := {[ "screen_resolution" := PNone; "browser_info" := PNone;
                           "os_info" := PNone; "ip_address" := PNone ]};
     baseline_established := false;
     anomaly_threshold := 15 # 100 |}.

Definition create_user_profile (B : backend) (clk : clock) (m : manager) (uid : string)
  : manager * profile :=
  let p := new_profile uid (clk_created clk) in
  let est := if SKLEARN_AVAILABLE B then Some Unfitted else None in
  ({| user_profiles := <[uid := p]> (user_profiles m);
      anomaly_models := <[uid := est]> (anomaly_models m);
      scalers := <[uid := est]> (scalers m);
      behavior_buffer := <[uid := []]> (behavior_buffer m);
      heap := heap m |}, p).

(** The opening of every [process_*] call: the profile, created when absent. *)
Definition ensure_profile (B : backend) (clk : clock) (m : manager) (uid : string)
  : manager * profile :=
  match user_profiles m !! uid with
  | Some p => (m, p)
  | None => create_user_profile B clk m uid
  end.

Definition set_profile (m : manager) (uid : string) (p : profile) : manager :=
  {| user_profiles := <[uid := p]> (user_profiles m);
     anomaly_models := anomaly_models m;
     scalers := scalers m;
     behavior_buffer := behavior_buffer m;
     heap := heap m |}.

(** ** Profile updates *)

(** The running average of a speed: the new speed at first, then the mean of
    the average and the new speed, in exact arithmetic. *)
Definition smooth (current_avg new_speed : Q) : Q :=
  if Qeq_bool current_avg 0 then new_speed else (current_avg + new_speed) / 2.

Definition _update_keystroke_profile (p : profile) (features : option keystroke_features)
  : profile :=
  let kp := p_keystroke p in
  let speed := from_option typing_speed 0%Q features in
  let avg := if Qeq_bool speed 0 then avg_typing_speed kp
             else smooth (avg_typing_speed kp) speed in
  let new := from_option f_keystroke_intervals [] features in
  let ivs := match new with
             | [] => keystroke_intervals kp
             | _ => let all := (keystroke_intervals kp ++ new)%list in
                    if decide (1000 < length all)%nat then last_n 1000 all else all
             end in
  {| user_id := user_id p; created_at := created_at p;
     p_keystroke := {| avg_typing_speed := avg; keystroke_intervals := ivs;
                       error_rate := error_rate kp;
                       common_sequences := common_sequences kp |};
     p_mouse := p_mouse p; device_patterns := device_patterns p;
     baseline_established := baseline_established p;
     anomaly_threshold := anomaly_threshold p |}.

Definition _update_mouse_profile (p : profile) (features : option mouse_features) : profile :=
  let mp := p_mouse p in
  let speed := from_option movement_speed 0%Q features in
  let avg := if Qeq_bool speed 0 then avg_movement_speed mp
             else smooth (avg_movement_speed mp) speed in
  let clicks := from_option click_count 0%nat features in
  let cps := match clicks with
             | O => click_patterns mp
             | _ => let all := (click_patterns mp ++ [clicks])%list in
                    if decide (100 < length all)%nat then last_n 100 all else all
             end in
  {| user_id := user_id p; created_at := created_at p;
     p_keystroke := p_keystroke p;
     p_mouse := {| avg_movement_speed := avg; click_patterns := cps;
                   scroll_patterns := scroll_patterns mp;
                   movement_variance := movement_variance mp |};
     device_patterns := device_patterns p;
     baseline_established := baseline_established p;
     anomaly_threshold := anomaly_threshold p |}.

Definition _check_baseline_sufficient (p : profile) : bool :=
  let sufficient_keystrokes := bool_decide (50 ≤ length (keystroke_intervals (p_keystroke p)))%nat in
  let sufficient_mouse := bool_decide (20 ≤ length (click_patterns (p_mouse p)))%nat in
  sufficient_keystrokes || sufficient_mouse.

(** ** Scoring *)

(** [d.get(uid)] on a dictionary of estimators: [None] for a missing key and
    for a stored [None]. *)
Definition get_estimator (d : gmap string (option estimator)) (uid : string)
  : option estimator := d !! uid ≫= id.

(** [max(0, min(1, (margin + 0.5) / 1.0))]. *)
Definition margin_score (margin : Q) : Q := py_max 0 (py_min 1 ((margin + (1 # 2)) / 1)).

(** [0.0 if prediction[0] == 1 else 1.0]. *)
Definition verdict_score (prediction : Z) : Q := if Z.eqb prediction 1 then 0%Q else 1%Q.

Definition keystroke_vector (features : option keystroke_features) : list Q :=
  [ from_option typing_speed 0%Q features;
    inject_Z (Z.of_nat (length (from_option f_keystroke_intervals [] features)));
    from_option error_count 0%Q features;
    from_option special_key_usage 0%Q features ].

Definition mouse_vector (features : option mouse_features) : list Q :=
  [ from_option movement_speed 0%Q features;
    inject_Z (Z.of_nat (from_option click_count 0%nat features));
    inject_Z (Z.of_nat (from_option scroll_count 0%nat features));
    from_option f_movement_variance 0%Q features ].

(** The body of the [try] shared by both detectors up to the last
    statement: the guard [not model or not scaler], then [transform] and
    [predict]; [finish] is what the detector does with the prediction. *)
Definition detect_body (B : backend) (m : manager) (uid : string) (fv : list Q)
    (finish : estimator -> list Q -> Z -> result Q) : result Q :=
  match get_estimator (anomaly_models m) uid with
  | None => Ok 0%Q
  | Some model =>
      mt ← model_truth B model;
      if negb mt then Ok 0%Q else
      match get_estimator (scalers m) uid with
      | None => Ok 0%Q
      | Some scaler =>
          st ← scaler_truth B scaler;
          if negb st then Ok 0%Q else
          scaled ← scaler_transform B scaler fv;
          prediction ← model_predict B model scaled;
          finish model scaled prediction
      end
  end.

(** [except Exception: return 0.0]. *)
Definition or_zero (r : result Q) : Q :=
  match r with
  | Ok s => s
  | Raise _ => 0%Q
  end.

Definition _detect_keystroke_anomalies (B : backend) (m : manager) (uid : string)
    (features : option keystroke_features) : Q :=
  if negb (SKLEARN_AVAILABLE B) then 1 # 10
  else or_zero (detect_body B m uid (keystroke_vector features)
                  (fun model scaled _ =>
                     margin ← model_decision_function B model scaled;
                     Ok (margin_score margin))).

Definition _detect_mouse_anomalies (B : backend) (m : manager) (uid : string)
    (features : option mouse_features) : Q :=
  if negb (SKLEARN_AVAILABLE B) then 1 # 10
  else or_zero (detect_body B m uid (mouse_vector features)
                  (fun _ _ prediction => Ok (verdict_score prediction))).

(** ** Training *)

Definition sum_nat (l : list nat) : nat := foldr Nat.add 0%nat l.

Definition training_rows (p : profile) : list (list Q) :=
  let kp := p_keystroke p in
  let mp := p_mouse p in
  ((if Qgtb (avg_typing_speed kp) 0
    then [[ avg_typing_speed kp;
            inject_Z (Z.of_nat (length (keystroke_intervals kp)));
            error_rate kp; 0%Q ]]
    else []) ++
   (if Qgtb (avg_movement_speed mp) 0
    then [[ avg_movement_speed mp;
            match click_patterns mp with
            | [] => 0%Q
            | cps => (inject_Z (Z.of_nat (sum_nat cps)) / inject_Z (Z.of_nat (length cps)))%Q
            end;
            0%Q; movement_variance mp ]]
    else []))%list.

(** [scaler = self.scalers[user_id]; if scaler: scaler.fit(training_array)]. *)
Definition fit_scaler (B : backend) (m : manager) (uid : string) (rows : list (list Q))
  : result manager :=
  match scalers m !! uid with
  | None => Raise KeyError
  | Some None => Ok m
  | Some (Some scaler) =>
      t ← scaler_truth B scaler;
      Ok (if t : bool
          then {| user_profiles := user_profiles m; anomaly_models := anomaly_models m;
                  scalers := <[uid := Some (Fitted rows)]> (scalers m);
                  behavior_buffer := behavior_buffer m; heap := heap m |}
          else m)
  end.

(** [model = self.anomaly_models[user_id]; if model: model.fit(training_array)]. *)
Definition fit_model (B : backend) (m : manager) (uid : string) (rows : list (list Q))
  : result manager :=
  match anomaly_models m !! uid with
  | None => Raise KeyError
  | Some None => Ok m
  | Some (Some model) =>
      t ← model_truth B model;
      Ok (if t : bool
          then {| user_profiles := user_profiles m;
                  anomaly_models := <[uid := Some (Fitted rows)]> (anomaly_models m);
                  scalers := scalers m;
                  behavior_buffer := behavior_buffer m; heap := heap m |}
          else m)
  end.

(** An exception leaves the manager as the statements before it made it. *)
Definition _train_user_model (B : backend) (m : manager) (uid : string) : manager :=
  if negb (SKLEARN_AVAILABLE B) then m
  else match user_profiles m !! uid with
       | None => m
       | Some p =>
           let rows := training_rows p in
           if bool_decide (0 < length rows)%nat && numpy_available B then
             match fit_scaler B m uid rows with
             | Raise _ => m
             | Ok m1 =>
                 match fit_model B m1 uid rows with
                 | Raise _ => m1
                 | Ok m2 => m2
                 end
             end
           else m
       end.

(** ** Processing event batches *)

Record finding := {
  fd_type : string;
  fd_score : Q;
  fd_description : string
}.

Record process_result := {
  r_user_id : string;
  events_processed : nat;
  anomaly_score : Q;
  anomalies_detected : list finding;
  r_timestamp : string;
  r_error : option exn
}.

Definition fresh_result (clk : clock) (uid : string) (n : nat) : process_result :=
  {| r_user_id := uid; events_processed := n; anomaly_score := 0;
     anomalies_detected := []; r_timestamp := clk_result clk; r_error := None |}.

Definition failed (r : process_result) (e : exn) : process_result :=
  {| r_user_id := r_user_id r; events_processed := events_processed r;
     anomaly_score := anomaly_score r; anomalies_detected := anomalies_detected r;
     r_timestamp := r_timestamp r; r_error := Some e |}.

Definition scored (r : process_result) (tag description : string) (score threshold : Q)
  : process_result :=
  {| r_user_id := r_user_id r; events_processed := events_processed r;
     anomaly_score := score;
     anomalies_detected :=
       if Qgtb score threshold
       then [ {| fd_type := tag; fd_score := score; fd_description := description |} ]
       else [];
     r_timestamp := r_timestamp r; r_error := r_error r |}.

(** [event['type'] = tag; event['timestamp'] = datetime.now().isoformat()]. *)
Definition tag_event (tag now : string) (e : dict) : dict :=
  <["timestamp" := PStr now]> (<["type" := PStr tag]> e).

(** The heap after the tagging loop has run over the batch. *)
Fixpoint tag_events (tag : string) (clk : clock) (i : nat) (h : gmap nat dict)
    (events : list loc) : gmap nat dict :=
  match events with
  | [] => h
  | l :: rest =>
      tag_events tag clk (S i) (<[l := tag_event tag (clk_event clk i) (deref h l)]> h) rest
  end.

(** The buffer after the appends and the size check. *)
Definition buffered (buf events : list loc) : list loc :=
  let all := (buf ++ events)%list in
  if decide (buffer_size < length all)%nat then last_n buffer_size all else all.

(** The loop and the size check on the state: the profile as updated, the
    events tagged, the buffer extended. Without a buffer for the user the
    first access raises [KeyError], after the first event was tagged. *)
Definition buffer_events (tag : string) (clk : clock) (m : manager) (uid : string)
    (p : profile) (events : list loc) : manager * option exn :=
  match behavior_buffer m !! uid with
  | None =>
      ({| user_profiles := <[uid := p]> (user_profiles m);
          anomaly_models := anomaly_models m; scalers := scalers m;
          behavior_buffer := behavior_buffer m;
          heap := tag_events tag clk 0 (heap m) (take 1 events) |}, Some KeyError)
  | Some buf =>
      ({| user_profiles := <[uid := p]> (user_profiles m);
          anomaly_models := anomaly_models m; scalers := scalers m;
          behavior_buffer := <[uid := buffered buf events]> (behavior_buffer m);
          heap := tag_events tag clk 0 (heap m) events |}, None)
  end.

Definition establish (p : profile) : profile :=
  {| user_id := user_id p; created_at := created_at p;
     p_keystroke := p_keystroke p; p_mouse := p_mouse p;
     device_patterns := device_patterns p;
     baseline_established := true;
     anomaly_threshold := anomaly_threshold p |}.

Definition process_keystroke_data (B : backend) (clk : clock) (m : manager) (uid : string)
    (keystroke_events : list loc) : manager * process_result :=
  let '(m1, p) := ensure_profile B clk m uid in
  let results := fresh_result clk uid (length keystroke_events) in
  match _extract_keystroke_features clk (deref (heap m1) <$> keystroke_events) with
  | Raise e => (m1, failed results e)
  | Ok features =>
      let p1 := _update_keystroke_profile p features in
      match buffer_events "keystroke" clk m1 uid p1 keystroke_events with
      | (m2, Some e) => (m2, failed results e)
      | (m2, None) =>
          if baseline_established p1 then
            let score := _detect_keystroke_anomalies B m2 uid features in
            (m2, scored results "keystroke" "Unusual keystroke pattern detected"
                   score (anomaly_threshold p1))
          else if _check_baseline_sufficient p1 then
            (_train_user_model B (set_profile m2 uid (establish p1)) uid, results)
          else (m2, results)
      end
  end.

Definition process_mouse_data (B : backend) (clk : clock) (m : manager) (uid : string)
    (mouse_events : list loc) : manager * process_result :=
  let '(m1, p) := ensure_profile B clk m uid in
  let results := fresh_result clk uid (length mouse_events) in
  let features := _extract_mouse_features (deref (heap m1) <$> mouse_events) in
  let p1 := _update_mouse_profile p features in
  match buffer_events "mouse" clk m1 uid p1 mouse_events with
  | (m2, Some e) => (m2, failed results e)
  | (m2, None) =>
      if baseline_established p1 then
        let score := _detect_mouse_anomalies B m2 uid features in
        (m2, scored results "mouse" "Unusual mouse movement pattern detected"
               score (anomaly_threshold p1))
      else (m2, results)
  end.

(** ** Device snapshots *)

Record device_finding := {
  df_type : string;
  df_description : string;
  df_severity : string
}.

Record device_result := {
  d_user_id : string;
  device_match : bool;
  d_anomalies_detected : list device_finding;
  d_timestamp : string;
  d_error : option exn
}.

(** One comparison: [if stored[k] and stored[k] != device_info.get(k)]. The
    subscript raises [KeyError] when the profile lacks the key. *)
Definition check_field (stored device_info : dict) (k description severity : string)
    (found : list device_finding) : result (list device_finding) :=
  match stored !! k with
  | None => Raise KeyError
  | Some v =>
      Ok (if truthy v && negb (py_eq v (dict_get device_info k))
          then (found ++ [ {| df_type := "device"; df_description := description;
                              df_severity := severity |} ])%list
          else found)
  end.

Definition set_device_patterns (p : profile) (d : dict) : profile :=
  {| user_id := user_id p; created_at := created_at p;
     p_keystroke := p_keystroke p; p_mouse := p_mouse p;
     device_patterns := d;
     baseline_established := baseline_established p;
     anomaly_threshold := anomaly_threshold p |}.

Definition process_device_data (B : backend) (clk : clock) (m : manager) (uid : string)
    (device_info : dict) : manager * device_result :=
  let '(m1, p) := ensure_profile B clk m uid in
  let results found err :=
    {| d_user_id := uid; device_match := true; d_anomalies_detected := found;
       d_timestamp := clk_result clk; d_error := err |} in
  let stored := device_patterns p in
  match check_field stored device_info "screen_resolution"
          "Screen resolution changed" "medium" [] with
  | Raise e => (m1, results [] (Some e))
  | Ok a1 =>
      match check_field stored device_info "browser_info"
              "Browser information changed" "low" a1 with
      | Raise e => (m1, results a1 (Some e))
      | Ok a2 =>
          match check_field stored device_info "ip_address"
                  "IP address changed - potential location change" "high" a2 with
          | Raise e => (m1, results a2 (Some e))
          | Ok a3 =>
              (* [device_patterns.update(device_info)] *)
              (set_profile m1 uid (set_device_patterns p (device_info ∪ stored)),
               results a3 None)
          end
      end
  end.

(** ** The security score *)

Record recent_finding := {
  rf_type : string;
  rf_score : Q;
  rf_timestamp : string
}.

Definition _analyze_recent_behavior (B : backend) (clk : clock) (m : manager) (uid : string)
    (events : list dict) : result (list recent_finding) :=
  let keystroke_events := filter (fun e => get_is e "type" "keystroke" = true) events in
  let mouse_events := filter (fun e => get_is e "type" "mouse" = true) events in
  a1 ← match keystroke_events with
       | [] => Ok []
       | _ =>
           features ← _extract_keystroke_features clk keystroke_events;
           let score := _detect_keystroke_anomalies B m uid features in
           Ok (if Qgtb score (1 # 2)
               then [ {| rf_type := "keystroke"; rf_score := score;
                         rf_timestamp := clk_event clk 0 |} ]
               else [])
       end;
  let a2 := match mouse_events with
            | [] => []
            | _ =>
                let score := _detect_mouse_anomalies B m uid
                               (_extract_mouse_features mouse_events) in
                if Qgtb score (1 # 2)
                then [ {| rf_type := "mouse"; rf_score := score;
                          rf_timestamp := clk_event clk 1 |} ]
                else []
            end in
  Ok (a1 ++ a2)%list.

Record security_assessment := {
  sa_user_id : string;
  security_score : Z;
  risk_level : string;
  anomalies_count : nat;
  sa_baseline_established : bool;
  sa_timestamp : option string
}.

(** The tiers, as the [if]/[elif]/[else] chain has them. *)
Definition risk_of (anomalies_count : nat) : string :=
  if decide (anomalies_count = 0)%nat then "low"
  else if decide (anomalies_count ≤ 2)%nat then "medium"
  else "high".

Definition get_security_score (B : backend) (clk : clock) (m : manager) (uid : string)
  : result security_assessment :=
  match user_profiles m !! uid with
  | None =>
      Ok {| sa_user_id := uid; security_score := 0; risk_level := "unknown";
            anomalies_count := 0; sa_baseline_established := false;
            sa_timestamp := None |}
  | Some p =>
      let recent_events := default [] (behavior_buffer m !! uid) in
      '(score, risk, count) ←
        match recent_events with
        | [] => Ok (100%Z, "low", 0%nat)
        | _ =>
            recent_anomalies ← _analyze_recent_behavior B clk m uid
                                 (deref (heap m) <$> recent_events);
            let count := length recent_anomalies in
            Ok ((100 - Z.of_nat count * 10)%Z, risk_of count, count)
        end;
      Ok {| sa_user_id := uid;
            security_score := Z.max 0 (Z.min 100 score);
            risk_level := risk;
            anomalies_count := count;
            sa_baseline_established := baseline_established p;
            sa_timestamp := Some (clk_result clk) |}
  end.

(** ** Sequences of calls *)

Inductive call :=
  | Keystroke (uid : string) (events : list loc)
  | Mouse (uid : string) (events : list loc)
  | Device (uid : string) (device_info : dict)
  | Score (uid : string).

(** The manager after one call; [get_security_score] only reads. *)
Definition step (B : backend) (m : manager) (c : clock * call) : manager :=
  match c.2 with
  | Keystroke uid events => (process_keystroke_data B c.1 m uid events).1
  | Mouse uid events => (process_mouse_data B c.1 m uid events).1
  | Device uid info => (process_device_data B c.1 m uid info).1
  | Score _ => m
  end.

Definition run (B : backend) (m : manager) (calls : list (clock * call)) : manager :=
  fold_left (step B) calls m.

(** ** Sample inputs *)

(** The estimator library as scikit-learn has it. A [StandardScaler] is a
    plain object, hence truthy. An [IsolationForest] is an ensemble with a
    [__len__] over its fitted trees: the truth test of an unfitted forest
    raises, that of a fitted one succeeds. An unfitted estimator refuses to
    transform or predict, and a fitted model answers every vector with margin
    [0], hence with the verdict "normal". *)
Definition sample_backend : backend :=
  {| SKLEARN_AVAILABLE := true;
     numpy_available := true;
     model_truth := fun e =>
       match e with Unfitted => Raise EstimatorError | Fitted _ => Ok true end;
     scaler_truth := fun _ => Ok true;
     scaler_transform := fun e fv =>
       match e with Unfitted => Raise EstimatorError | Fitted _ => Ok fv end;
     model_predict := fun e _ =>
       match e with Unfitted => Raise EstimatorError | Fitted _ => Ok 1%Z end;
     model_decision_function := fun e _ =>
       match e with Unfitted => Raise EstimatorError | Fitted _ => Ok 0%Q end |}.

(** A library whose model objects are plainly truthy, fitted or not, which is
    what the test [if model:] of [_train_user_model] expects; the rest as in
    [sample_backend]. *)
Definition plain_backend : backend :=
  {| SKLEARN_AVAILABLE := true;
     numpy_available := true;
     model_truth := fun _ => Ok true;
     scaler_truth := scaler_truth sample_backend;
     scaler_transform := scaler_transform sample_backend;
     model_predict := model_predict sample_backend;
     model_decision_function := model_decision_function sample_backend |}.

(** The same library when the import of scikit-learn failed. *)
Definition no_backend : backend :=
  {| SKLEARN_AVAILABLE := false;
     numpy_available := numpy_available sample_backend;
     model_truth := model_truth sample_backend;
     scaler_truth := scaler_truth sample_backend;
     scaler_transform := scaler_transform sample_backend;
     model_predict := model_predict sample_backend;
     model_decision_function := model_decision_function sample_backend |}.

Definition sample_clock (created result : string) : clock :=
  {| clk_created := created; clk_result := result;
     clk_event := fun _ => result; clk_time := fun _ => 0%Q |}.

Definition click_event : dict := {[ "type" := PStr "click" ]}.

Definition keydown_event (t : Q) : dict :=
  {[ "type" := PStr "keydown"; "timestamp" := PNum t ]}.

(** Twenty click events at addresses 0..19, two key presses with the same
    timestamp at addresses 20 and 21, and two one second apart at 22 and 23. *)
Definition sample_heap : gmap nat dict :=
  list_to_map (imap (fun i e => (i, e))
                 (replicate 20 click_event ++
                  [keydown_event 5; keydown_event 5; keydown_event 1; keydown_event 2])%list).

(** [n] mouse batches of one fresh click event each, for user ["u"]. *)
Definition click_batches (n : nat) : list (clock * call) :=
  (fun i => (sample_clock "t0" "t1", Mouse "u" [i])) <$> seq 0 n.

(** ** State predicates *)

(** The flag of a user, [false] for a user without a profile. *)
Definition established (m : manager) (uid : string) : bool :=
  from_option baseline_established false (user_profiles m !! uid).

Definition buffer_of (m : manager) (uid : string) : list loc :=
  default [] (behavior_buffer m !! uid).

Definition intervals_of (m : manager) (uid : string) : list Q :=
  from_option (fun p => keystroke_intervals (p_keystroke p)) [] (user_profiles m !! uid).

(** Profiles and buffers have the same keys, as [create_user_profile] makes
    them. *)
Definition consistent (m : manager) : Prop :=
  ∀ uid, is_Some (user_profiles m !! uid) ↔ is_Some (behavior_buffer m !! uid).

(** The caps on what is kept per user. *)
Definition bounded (m : manager) : Prop :=
  (∀ uid buf, behavior_buffer m !! uid = Some buf → (length buf ≤ 50)%nat) ∧
  (∀ uid p, user_profiles m !! uid = Some p →
            (length (keystroke_intervals (p_keystroke p)) ≤ 1000)%nat).

(** Every buffered event carries one of the two modality tags. *)
Definition tagged (d : dict) : Prop :=
  d !! "type" = Some (PStr "keystroke") ∨ d !! "type" = Some (PStr "mouse").

Definition buffer_tagged (m : manager) : Prop :=
  ∀ uid buf l, behavior_buffer m !! uid = Some buf → l ∈ buf → tagged (deref (heap m) l).

(** Training touches the estimators only. *)
Definition same_data (m m' : manager) : Prop :=
  user_profiles m' = user_profiles m ∧
  behavior_buffer m' = behavior_buffer m ∧
  heap m' = heap m.

(** The profile a keystroke batch leaves, from the profile as updated. *)
Definition keystroke_outcome (p1 : profile) : profile :=
  if baseline_established p1 then p1
  else if _check_baseline_sufficient p1 then establish p1 else p1.

(** The intervals a batch contributes: [features.get('keystroke_intervals')]. *)
Definition new_intervals (f : option keystroke_features) : list Q :=
  from_option f_keystroke_intervals [] f.

(** Whether the data of a user passes the sufficiency check. *)
Definition sufficient_now (m : manager) (uid : string) : bool :=
  from_option _check_baseline_sufficient false (user_profiles m !! uid).

(** Twenty click batches, then an empty keystroke batch: the flag flips while
    the profile yields no training row. *)
Definition untrained_trace : list (clock * call) :=
  (click_batches 20 ++ [(sample_clock "t0" "t1", Keystroke "u" [])])%list.

(** Twenty click batches, then the two key presses one second apart: the flag
    flips while the profile yields the training row [[2; 1; 0; 0]]. *)
Definition trained_trace : list (clock * call) :=
  (click_batches 20 ++ [(sample_clock "t0" "t1", Keystroke "u" [22; 23])])%list.


(** The features [_extract_keystroke_features] and [_extract_mouse_features]
    give for a non-empty batch without key presses, clicks or scrolls. *)
Definition zero_keystroke_features : keystroke_features :=
  {| typing_speed := 0; f_keystroke_intervals := []; error_count := 0;
     special_key_usage := 0 |}.

Definition zero_mouse_features : mouse_features :=
  {| movement_speed := 0; click_count := 0; scroll_count := 0; f_movement_variance := 0 |}.

(** The findings of [_analyze_recent_behavior] when both modalities are
    scored on zero features. *)
Definition zero_findings (B : backend) (clk : clock) (m : manager) (uid : string)
    (events : list dict) : list recent_finding :=
  ((match filter (fun e => get_is e "type" "keystroke" = true) events with
    | [] => []
    | _ => let score := _detect_keystroke_anomalies B m uid (Some zero_keystroke_features) in
           if Qgtb score (1 # 2)
           then [ {| rf_type := "keystroke"; rf_score := score;
                     rf_timestamp := clk_event clk 0 |} ]
           else []
    end) ++
   (match filter (fun e => get_is e "type" "mouse" = true) events with
    | [] => []
    | _ => let score := _detect_mouse_anomalies B m uid (Some zero_mouse_features) in
           if Qgtb score (1 # 2)
           then [ {| rf_type := "mouse"; rf_score := score;
                     rf_timestamp := clk_event clk 1 |} ]
           else []
    end))%list.

(** The record [get_security_score] returns for a user without a profile. *)
Definition unknown_assessment (uid : string) : security_assessment :=
  {| sa_user_id := uid; security_score := 0; risk_level := "unknown";
     anomalies_count := 0; sa_baseline_established := false; sa_timestamp := None |}.

(** The number of findings over the buffer of a user. *)
Definition recent_count (B : backend) (clk : clock) (m : manager) (uid : string) : nat :=
  match buffer_of m uid with
  | [] => 0
  | evs => length (zero_findings B clk m uid (deref (heap m) <$> evs))
  end.

(** The test of one device field: the stored value is truthy and differs
    from what the snapshot has under the key. *)
Definition changed (stored_value snapshot_value : pyval) : bool :=
  truthy stored_value && negb (py_eq stored_value snapshot_value).

Definition device_entry (description severity : string) : device_finding :=
  {| df_type := "device"; df_description := description; df_severity := severity |}.

(** The entries a snapshot yields against stored values, in the order of the
    three tests. *)
Definition device_findings (res br ip : pyval) (device_info : dict) : list device_finding :=
  ((if changed res (dict_get device_info "screen_resolution")
    then [device_entry "Screen resolution changed" "medium"] else []) ++
   (if changed br (dict_get device_info "browser_info")
    then [device_entry "Browser information changed" "low"] else []) ++
   (if changed ip (dict_get device_info "ip_address")
    then [device_entry "IP address changed - potential location change" "high"]
    else []))%list.

(** The value stored for a device field of a user. *)
Definition stored_device (m : manager) (uid k : string) : option pyval :=
  user_profiles m !! uid ≫= fun p => device_patterns p !! k.

(** ** Further state predicates *)

(** [get_user_profile]: [self.user_profiles.get(user_id)]. *)
Definition get_user_profile (m : manager) (uid : string) : option profile :=
  user_profiles m !! uid.

(** The user a call is for. *)
Definition call_user (c : call) : string :=
  match c with
  | Keystroke uid _ | Mouse uid _ | Device uid _ | Score uid => uid
  end.

(** The four dictionaries agree at a key. *)
Definition same_at (u : string) (m m' : manager) : Prop :=
  user_profiles m' !! u = user_profiles m !! u ∧
  anomaly_models m' !! u = anomaly_models m !! u ∧
  scalers m' !! u = scalers m !! u ∧
  behavior_buffer m' !! u = behavior_buffer m !! u.

(** What holds of every profile the manager builds: it is filed under its
    own id, keeps the default threshold, has no error rate, movement speed
    or movement variance, a click history of at most 100 positive counts,
    and the three compared device fields. *)
Definition profile_ok (uid : string) (p : profile) : Prop :=
  user_id p = uid ∧
  anomaly_threshold p = 15 # 100 ∧
  error_rate (p_keystroke p) = 0%Q ∧
  avg_movement_speed (p_mouse p) = 0%Q ∧
  movement_variance (p_mouse p) = 0%Q ∧
  (length (click_patterns (p_mouse p)) ≤ 100)%nat ∧
  Forall (fun c => (1 ≤ c)%nat) (click_patterns (p_mouse p)) ∧
  is_Some (device_patterns p !! "screen_resolution") ∧
  is_Some (device_patterns p !! "browser_info") ∧
  is_Some (device_patterns p !! "ip_address").

(** The estimator entries of a user: objects when scikit-learn is there,
    unfitted as long as the baseline is not established; [None] otherwise. *)
Definition estimators_ok (B : backend) (flag : bool)
    (model scaler : option (option estimator)) : Prop :=
  if SKLEARN_AVAILABLE B
  then ∃ e1 e2, model = Some (Some e1) ∧ scaler = Some (Some e2) ∧
                (flag = false → e1 = Unfitted ∧ e2 = Unfitted)
  else model = Some None ∧ scaler = Some None.

Definition sound (B : backend) (m : manager) : Prop :=
  consistent m ∧
  ∀ uid p, user_profiles m !! uid = Some p →
    profile_ok uid p ∧
    estimators_ok B (baseline_established p) (anomaly_models m !! uid) (scalers m !! uid).

(** The state a keystroke batch leaves before the baseline decision. *)
Definition batch_state (tag : string) (clk : clock) (m1 : manager) (uid : string)
    (p1 : profile) (buf : list loc) (evs : list loc) : manager :=
  {| user_profiles := <[uid := p1]> (user_profiles m1);
     anomaly_models := anomaly_models m1; scalers := scalers m1;
     behavior_buffer := <[uid := buffered buf evs]> (behavior_buffer m1);
     heap := tag_events tag clk 0 (heap m1) evs |}.

(** The number of key presses of a batch. *)
Definition keydown_count (events : list dict) : nat :=
  length (filter (fun e => get_is e "type" "keydown" = true) events).

(** * Lemmas *)

Section Manager.
Context (B : backend).

Lemma fit_scaler_data m uid rows m' : fit_scaler B m uid rows = Ok m' → same_data m m'.
Proof.
  unfold fit_scaler. intros H.
  destruct (scalers m !! uid) as [[sc|]|]; simplify_eq; [|done].
  destruct (scaler_truth B sc) as [[]|]; simpl in H; by simplify_eq.
Qed.

Lemma fit_model_data m uid rows m' : fit_model B m uid rows = Ok m' → same_data m m'.
Proof.
  unfold fit_model. intros H.
  destruct (anomaly_models m !! uid) as [[mo|]|]; simplify_eq; [|done].
  destruct (model_truth B mo) as [[]|]; simpl in H; by simplify_eq.
Qed.

Lemma train_data m uid : same_data m (_train_user_model B m uid).
Proof.
  unfold _train_user_model.
  destruct (negb (SKLEARN_AVAILABLE B)); [done|].
  destruct (user_profiles m !! uid) as [p|]; [|done].
  destruct (_ && _); [|done].
  destruct (fit_scaler B m uid (training_rows p)) as [m1|] eqn:H1; [|done].
  apply fit_scaler_data in H1 as (? & ? & ?).
  destruct (fit_model B m1 uid (training_rows p)) as [m2|] eqn:H2; [|done].
  apply fit_model_data in H2 as (? & ? & ?).
  unfold same_data. by repeat split; etrans.
Qed.

Lemma train_profiles m uid : user_profiles (_train_user_model B m uid) = user_profiles m.
Proof. apply train_data. Qed.

Lemma train_buffer m uid : behavior_buffer (_train_user_model B m uid) = behavior_buffer m.
Proof. apply train_data. Qed.

Lemma train_heap m uid : heap (_train_user_model B m uid) = heap m.
Proof. apply train_data. Qed.

(** *** The opening of a call *)

Lemma ensure_profile_lookup m clk uid :
  user_profiles (ensure_profile B clk m uid).1 !! uid = Some (ensure_profile B clk m uid).2.
Proof.
  unfold ensure_profile. destruct (user_profiles m !! uid) eqn:E; simpl; [done|].
  apply lookup_insert_eq.
Qed.

Lemma ensure_profile_other m clk uid u :
  u ≠ uid → user_profiles (ensure_profile B clk m uid).1 !! u = user_profiles m !! u.
Proof.
  intros Hne. unfold ensure_profile. destruct (user_profiles m !! uid); simpl; [done|].
  by apply lookup_insert_ne.
Qed.

Lemma ensure_profile_flag m clk uid :
  baseline_established (ensure_profile B clk m uid).2 = established m uid.
Proof.
  unfold ensure_profile, established. by destruct (user_profiles m !! uid).
Qed.

Lemma ensure_profile_heap m clk uid : heap (ensure_profile B clk m uid).1 = heap m.
Proof. unfold ensure_profile. by destruct (user_profiles m !! uid). Qed.

(** *** The flag across one call *)

Lemma buffer_events_profiles tag clk m uid p evs :
  user_profiles (buffer_events tag clk m uid p evs).1 = <[uid := p]> (user_profiles m).
Proof. unfold buffer_events. by destruct (behavior_buffer m !! uid). Qed.

Lemma keystroke_profiles_other clk m uid evs u :
  u ≠ uid →
  user_profiles (process_keystroke_data B clk m uid evs).1 !! u = user_profiles m !! u.
Proof.
  intros Hne. unfold process_keystroke_data.
  pose proof (ensure_profile_other m clk uid u Hne) as Ho.
  destruct (ensure_profile B clk m uid) as [m1 p]. simpl in Ho.
  destruct (_extract_keystroke_features _ _) as [f|e]; simpl; [|done].
  pose proof (buffer_events_profiles "keystroke" clk m1 uid
                (_update_keystroke_profile p f) evs) as Hb.
  destruct (buffer_events _ _ _ _ _ _) as [m2 [e|]]; simpl in *.
  { by rewrite Hb, lookup_insert_ne. }
  repeat case_match; simpl; rewrite ?train_profiles; simpl;
    rewrite Hb, ?lookup_insert_ne; done.
Qed.

Lemma keystroke_flag_kept clk m uid evs :
  established m uid = true →
  established (process_keystroke_data B clk m uid evs).1 uid = true.
Proof.
  intros He. unfold process_keystroke_data.
  pose proof (ensure_profile_lookup m clk uid) as Hl.
  pose proof (ensure_profile_flag m clk uid) as Hf. rewrite He in Hf.
  destruct (ensure_profile B clk m uid) as [m1 p]. simpl in Hl, Hf.
  destruct (_extract_keystroke_features _ _) as [f|e]; simpl.
  2:{ unfold established. by rewrite Hl. }
  pose proof (buffer_events_profiles "keystroke" clk m1 uid
                (_update_keystroke_profile p f) evs) as Hb.
  destruct (buffer_events _ _ _ _ _ _) as [m2 [e|]]; simpl in *.
  { unfold established. by rewrite Hb, lookup_insert_eq. }
  rewrite Hf. simpl. unfold established. by rewrite Hb, lookup_insert_eq.
Qed.

Lemma mouse_profiles_other clk m uid evs u :
  u ≠ uid →
  user_profiles (process_mouse_data B clk m uid evs).1 !! u = user_profiles m !! u.
Proof.
  intros Hne. unfold process_mouse_data.
  pose proof (ensure_profile_other m clk uid u Hne) as Ho.
  destruct (ensure_profile B clk m uid) as [m1 p]. simpl in Ho.
  set (p1 := _update_mouse_profile p _).
  pose proof (buffer_events_profiles "mouse" clk m1 uid p1 evs) as Hb.
  destruct (buffer_events _ _ _ _ _ _) as [m2 [e|]]; simpl in *.
  { by rewrite Hb, lookup_insert_ne. }
  case_match; simpl; by rewrite Hb, lookup_insert_ne.
Qed.

Lemma mouse_flag clk m uid evs :
  established (process_mouse_data B clk m uid evs).1 uid = established m uid.
Proof.
  unfold process_mouse_data.
  pose proof (ensure_profile_flag m clk uid) as Hf.
  destruct (ensure_profile B clk m uid) as [m1 p]. simpl in Hf.
  set (p1 := _update_mouse_profile p _).
  pose proof (buffer_events_profiles "mouse" clk m1 uid p1 evs) as Hb.
  destruct (buffer_events _ _ _ _ _ _) as [m2 [e|]]; simpl in *.
  { unfold established at 1. by rewrite Hb, lookup_insert_eq. }
  assert (established m2 uid = established m uid) as Hm2.
  { unfold established at 1. by rewrite Hb, lookup_insert_eq. }
  by destruct (baseline_established p).
Qed.

Lemma device_profiles_other clk m uid info u :
  u ≠ uid →
  user_profiles (process_device_data B clk m uid info).1 !! u = user_profiles m !! u.
Proof.
  intros Hne. unfold process_device_data.
  pose proof (ensure_profile_other m clk uid u Hne) as Ho.
  destruct (ensure_profile B clk m uid) as [m1 p]. simpl in Ho.
  repeat (case_match; simpl; try done).
  by rewrite lookup_insert_ne.
Qed.

Lemma device_flag clk m uid info :
  established (process_device_data B clk m uid info).1 uid = established m uid.
Proof.
  unfold process_device_data.
  pose proof (ensure_profile_lookup m clk uid) as Hl.
  pose proof (ensure_profile_flag m clk uid) as Hf.
  destruct (ensure_profile B clk m uid) as [m1 p]. simpl in Hl, Hf.
  repeat (case_match; simpl; try (unfold established at 1; by rewrite Hl)).
  unfold established at 1. simpl. by rewrite lookup_insert_eq.
Qed.

Lemma established_other m m' u :
  user_profiles m' !! u = user_profiles m !! u → established m' u = established m u.
Proof. unfold established. by intros ->. Qed.

Lemma step_flag_kept m c u :
  established m u = true → established (step B m c) u = true.
Proof.
  intros He. destruct c as [clk [uid evs|uid evs|uid info|uid]];
    unfold step; cbn [fst snd]; [| | |done].
  - destruct (decide (u = uid)) as [->|Hne]; [by apply keystroke_flag_kept|].
    by rewrite (established_other m _ u (keystroke_profiles_other clk m uid evs u Hne)).
  - destruct (decide (u = uid)) as [->|Hne]; [by rewrite mouse_flag|].
    by rewrite (established_other m _ u (mouse_profiles_other clk m uid evs u Hne)).
  - destruct (decide (u = uid)) as [->|Hne]; [by rewrite device_flag|].
    by rewrite (established_other m _ u (device_profiles_other clk m uid info u Hne)).
Qed.

Lemma run_flag_kept calls m u :
  established m u = true → established (run B m calls) u = true.
Proof.
  revert m. induction calls as [|c calls IH]; intros m He; [done|].
  simpl. apply IH. by apply step_flag_kept.
Qed.

(** *** Consistency, and the shape of the state after a call *)

Lemma new_manager_consistent h : consistent (new_manager h).
Proof. intros u. simpl. by rewrite !lookup_empty. Qed.

Lemma ensure_profile_consistent m clk uid :
  consistent m → consistent (ensure_profile B clk m uid).1.
Proof.
  intros Hc. unfold ensure_profile. destruct (user_profiles m !! uid) eqn:E; simpl; [done|].
  intros u. simpl. destruct (decide (uid = u)) as [->|Hne].
  - rewrite !lookup_insert_eq. split; by eexists.
  - rewrite !lookup_insert_ne by done. apply Hc.
Qed.

Lemma ensure_profile_buffer_of m clk uid u :
  consistent m → buffer_of (ensure_profile B clk m uid).1 u = buffer_of m u.
Proof.
  intros Hc. unfold ensure_profile, buffer_of.
  destruct (user_profiles m !! uid) eqn:E; simpl; [done|].
  destruct (decide (uid = u)) as [->|Hne].
  - rewrite lookup_insert_eq. simpl.
    destruct (behavior_buffer m !! u) eqn:Eb; [|done].
    assert (is_Some (user_profiles m !! u)) as [? ?] by (apply Hc; by rewrite Eb).
    congruence.
  - by rewrite lookup_insert_ne.
Qed.

Lemma ensure_profile_intervals m clk uid u :
  intervals_of (ensure_profile B clk m uid).1 u = intervals_of m u.
Proof.
  unfold ensure_profile, intervals_of.
  destruct (user_profiles m !! uid) eqn:E; simpl; [done|].
  destruct (decide (uid = u)) as [->|Hne].
  - by rewrite lookup_insert_eq, E.
  - by rewrite lookup_insert_ne.
Qed.

Lemma insert_consistent m m' uid p buf :
  consistent m →
  user_profiles m' = <[uid := p]> (user_profiles m) →
  behavior_buffer m' = <[uid := buf]> (behavior_buffer m) →
  consistent m'.
Proof.
  intros Hc Hp Hb u. rewrite Hp, Hb. destruct (decide (uid = u)) as [->|Hne].
  - rewrite !lookup_insert_eq. split; by eexists.
  - rewrite !lookup_insert_ne by done. apply Hc.
Qed.

Lemma buffer_events_ok tag clk m uid p evs :
  consistent m → is_Some (user_profiles m !! uid) →
  buffer_events tag clk m uid p evs =
    ({| user_profiles := <[uid := p]> (user_profiles m);
        anomaly_models := anomaly_models m; scalers := scalers m;
        behavior_buffer := <[uid := buffered (buffer_of m uid) evs]> (behavior_buffer m);
        heap := tag_events tag clk 0 (heap m) evs |}, None).
Proof.
  intros Hc Hp. apply Hc in Hp as [buf Hb].
  unfold buffer_events, buffer_of. by rewrite Hb.
Qed.

Lemma keystroke_raise clk m uid evs e :
  _extract_keystroke_features clk (deref (heap m) <$> evs) = Raise e →
  process_keystroke_data B clk m uid evs =
    ((ensure_profile B clk m uid).1, failed (fresh_result clk uid (length evs)) e).
Proof.
  intros Hx. unfold process_keystroke_data.
  pose proof (ensure_profile_heap m clk uid) as Hh.
  destruct (ensure_profile B clk m uid) as [m1 p]. simpl in *.
  by rewrite Hh, Hx.
Qed.

Lemma keystroke_ok clk m uid evs f :
  consistent m →
  _extract_keystroke_features clk (deref (heap m) <$> evs) = Ok f →
  let m1 := (ensure_profile B clk m uid).1 in
  let p1 := _update_keystroke_profile (ensure_profile B clk m uid).2 f in
  let m' := (process_keystroke_data B clk m uid evs).1 in
  user_profiles m' = <[uid := keystroke_outcome p1]> (user_profiles m1) ∧
  behavior_buffer m' = <[uid := buffered (buffer_of m uid) evs]> (behavior_buffer m1) ∧
  heap m' = tag_events "keystroke" clk 0 (heap m) evs.
Proof.
  intros Hc Hx. unfold process_keystroke_data.
  pose proof (ensure_profile_heap m clk uid) as Hh.
  pose proof (ensure_profile_lookup m clk uid) as Hl.
  pose proof (ensure_profile_consistent m clk uid Hc) as Hc1.
  pose proof (ensure_profile_buffer_of m clk uid uid Hc) as Hbo.
  destruct (ensure_profile B clk m uid) as [m1 p]. simpl in *.
  rewrite Hh, Hx.
  rewrite buffer_events_ok by (done || by eexists).
  rewrite Hbo, Hh. unfold keystroke_outcome.
  change (baseline_established (_update_keystroke_profile p f))
    with (baseline_established p).
  destruct (baseline_established p) eqn:Eb; [done|].
  destruct (_check_baseline_sufficient _); [|done].
  cbn [fst]. rewrite train_profiles, train_buffer, train_heap. simpl.
  by rewrite insert_insert_eq.
Qed.

Lemma mouse_ok clk m uid evs :
  consistent m →
  let m1 := (ensure_profile B clk m uid).1 in
  let p1 := _update_mouse_profile (ensure_profile B clk m uid).2
              (_extract_mouse_features (deref (heap m) <$> evs)) in
  let m' := (process_mouse_data B clk m uid evs).1 in
  user_profiles m' = <[uid := p1]> (user_profiles m1) ∧
  behavior_buffer m' = <[uid := buffered (buffer_of m uid) evs]> (behavior_buffer m1) ∧
  heap m' = tag_events "mouse" clk 0 (heap m) evs.
Proof.
  intros Hc. unfold process_mouse_data.
  pose proof (ensure_profile_heap m clk uid) as Hh.
  pose proof (ensure_profile_lookup m clk uid) as Hl.
  pose proof (ensure_profile_consistent m clk uid Hc) as Hc1.
  pose proof (ensure_profile_buffer_of m clk uid uid Hc) as Hbo.
  destruct (ensure_profile B clk m uid) as [m1 p]. simpl in *.
  rewrite Hh.
  rewrite buffer_events_ok by (done || by eexists).
  rewrite Hbo, Hh.
  by destruct (baseline_established p).
Qed.

Lemma device_shape clk m uid info :
  let m1 := (ensure_profile B clk m uid).1 in
  let m' := (process_device_data B clk m uid info).1 in
  (m' = m1 ∨ ∃ p, m' = set_profile m1 uid p ∧
                  p_keystroke p = p_keystroke (ensure_profile B clk m uid).2).
Proof.
  unfold process_device_data.
  destruct (ensure_profile B clk m uid) as [m1 p]. simpl.
  repeat (case_match; simpl; try by left).
  right. by eexists.
Qed.

Lemma keystroke_consistent clk m uid evs :
  consistent m → consistent (process_keystroke_data B clk m uid evs).1.
Proof.
  intros Hc.
  destruct (_extract_keystroke_features clk (deref (heap m) <$> evs)) as [f|e] eqn:Hx.
  - destruct (keystroke_ok clk m uid evs f Hc Hx) as (Hp & Hb & _).
    eapply insert_consistent; [|done..]. by apply ensure_profile_consistent.
  - rewrite (keystroke_raise _ _ _ _ _ Hx). by apply ensure_profile_consistent.
Qed.

Lemma mouse_consistent clk m uid evs :
  consistent m → consistent (process_mouse_data B clk m uid evs).1.
Proof.
  intros Hc. destruct (mouse_ok clk m uid evs Hc) as (Hp & Hb & _).
  eapply insert_consistent; [|done..]. by apply ensure_profile_consistent.
Qed.

Lemma device_consistent clk m uid info :
  consistent m → consistent (process_device_data B clk m uid info).1.
Proof.
  intros Hc. pose proof (ensure_profile_consistent m clk uid Hc) as Hc1.
  pose proof (ensure_profile_lookup m clk uid) as Hl.
  destruct (device_shape clk m uid info) as [->|(p & -> & _)]; [done|].
  intros u. simpl. destruct (decide (uid = u)) as [->|Hne].
  - rewrite lookup_insert_eq. split; intros _; [|by eexists].
    apply Hc1. rewrite Hl. by eexists.
  - rewrite lookup_insert_ne by done. apply Hc1.
Qed.

Lemma step_consistent m c : consistent m → consistent (step B m c).
Proof.
  intros Hc. destruct c as [clk [uid evs|uid evs|uid info|uid]]; unfold step; cbn [fst snd].
  - by apply keystroke_consistent.
  - by apply mouse_consistent.
  - by apply device_consistent.
  - done.
Qed.

Lemma run_consistent calls m : consistent m → consistent (run B m calls).
Proof.
  revert m. induction calls as [|c calls IH]; intros m Hc; [done|].
  simpl. apply IH. by apply step_consistent.
Qed.

(** *** The caps *)

Lemma last_n_length {A} n (l : list A) : length (last_n n l) = (length l `min` n)%nat.
Proof. unfold last_n. rewrite length_drop. lia. Qed.

Lemma last_n_suffix {A} n (l : list A) :
  l = (take (length l - n) l ++ last_n n l)%list.
Proof. unfold last_n. by rewrite take_drop. Qed.

(** A capped append keeps the newest entries in order and evicts exactly
    the overflow, from the old end. *)
Lemma capped_append {A} n (old new kept : list A) :
  kept = (if decide (n < length (old ++ new))%nat
          then last_n n (old ++ new) else (old ++ new))%list →
  ∃ evicted, (old ++ new = evicted ++ kept)%list ∧
             length evicted = (length (old ++ new) - n)%nat ∧
             (length kept ≤ n)%nat.
Proof.
  intros ->. case_decide as Hlen.
  - exists (take (length (old ++ new) - n) (old ++ new)). split_and!.
    + apply last_n_suffix.
    + rewrite length_take. lia.
    + rewrite last_n_length. lia.
  - exists []. split_and!; [done|simpl; lia|lia].
Qed.

Lemma buffered_fifo buf evs :
  ∃ evicted, (buf ++ evs = evicted ++ buffered buf evs)%list ∧
             length evicted = (length (buf ++ evs) - 50)%nat ∧
             (length (buffered buf evs) ≤ 50)%nat.
Proof. by apply capped_append. Qed.

Lemma update_keystroke_fifo p f :
  (length (keystroke_intervals (p_keystroke p)) ≤ 1000)%nat →
  let kept := keystroke_intervals (p_keystroke (_update_keystroke_profile p f)) in
  ∃ evicted,
    (keystroke_intervals (p_keystroke p) ++ new_intervals f = evicted ++ kept)%list ∧
    length evicted =
      (length (keystroke_intervals (p_keystroke p) ++ new_intervals f) - 1000)%nat ∧
    (length kept ≤ 1000)%nat.
Proof.
  intros Hold. simpl. unfold new_intervals.
  destruct (from_option f_keystroke_intervals [] f) as [|d ds] eqn:En.
  - exists []. rewrite app_nil_r. split_and!; [done|simpl; lia|done].
  - by apply capped_append.
Qed.

Lemma outcome_keystroke p : p_keystroke (keystroke_outcome p) = p_keystroke p.
Proof. unfold keystroke_outcome. by repeat case_match. Qed.

Lemma new_manager_bounded h : bounded (new_manager h).
Proof. split; intros ??; simpl; by rewrite lookup_empty. Qed.

Lemma ensure_profile_bounded m clk uid :
  bounded m → bounded (ensure_profile B clk m uid).1.
Proof.
  intros [Hb Hi]. unfold ensure_profile.
  destruct (user_profiles m !! uid) eqn:E; simpl; [done|].
  split; simpl; intros u x; destruct (decide (uid = u)) as [->|Hne];
    rewrite ?lookup_insert_eq, ?lookup_insert_ne by done.
  - intros [= <-]. simpl. lia.
  - apply Hb.
  - intros [= <-]. simpl. lia.
  - apply Hi.
Qed.

Lemma insert_bounded m m' uid p buf :
  bounded m →
  user_profiles m' = <[uid := p]> (user_profiles m) →
  behavior_buffer m' = <[uid := buf]> (behavior_buffer m) →
  (length (keystroke_intervals (p_keystroke p)) ≤ 1000)%nat →
  (length buf ≤ 50)%nat →
  bounded m'.
Proof.
  intros [Hb Hi] Hp Hbuf Hlp Hlb. split; intros u x; rewrite ?Hp, ?Hbuf;
    destruct (decide (uid = u)) as [->|Hne];
    rewrite ?lookup_insert_eq, ?lookup_insert_ne by done;
    try (by intros [= <-]).
  - apply Hb.
  - apply Hi.
Qed.

Lemma keystroke_bounded clk m uid evs :
  consistent m → bounded m → bounded (process_keystroke_data B clk m uid evs).1.
Proof.
  intros Hc Hbd. pose proof (ensure_profile_bounded m clk uid Hbd) as Hbd1.
  destruct (_extract_keystroke_features clk (deref (heap m) <$> evs)) as [f|e] eqn:Hx.
  - destruct (keystroke_ok clk m uid evs f Hc Hx) as (Hp & Hb & _).
    eapply insert_bounded; [exact Hbd1|exact Hp|exact Hb| |].
    + rewrite outcome_keystroke.
      destruct (update_keystroke_fifo (ensure_profile B clk m uid).2 f) as (? & _ & _ & Hk);
        [|done].
      eapply Hbd1, ensure_profile_lookup.
    + by destruct (buffered_fifo (buffer_of m uid) evs) as (? & _ & _ & ?).
  - by rewrite (keystroke_raise _ _ _ _ _ Hx).
Qed.

Lemma mouse_bounded clk m uid evs :
  consistent m → bounded m → bounded (process_mouse_data B clk m uid evs).1.
Proof.
  intros Hc Hbd. pose proof (ensure_profile_bounded m clk uid Hbd) as Hbd1.
  destruct (mouse_ok clk m uid evs Hc) as (Hp & Hb & _).
  eapply insert_bounded; [exact Hbd1|exact Hp|exact Hb| |].
  - simpl. eapply Hbd1, ensure_profile_lookup.
  - by destruct (buffered_fifo (buffer_of m uid) evs) as (? & _ & _ & ?).
Qed.

Lemma device_bounded clk m uid info :
  bounded m → bounded (process_device_data B clk m uid info).1.
Proof.
  intros Hbd. pose proof (ensure_profile_bounded m clk uid Hbd) as [Hb1 Hi1].
  pose proof (ensure_profile_lookup m clk uid) as Hl.
  destruct (device_shape clk m uid info) as [->|(p & -> & Hk)]; [done|].
  split; [exact Hb1|]. intros u x. simpl.
  destruct (decide (uid = u)) as [->|Hne];
    rewrite ?lookup_insert_eq, ?lookup_insert_ne by done; [|apply Hi1].
  intros [= <-]. rewrite Hk. by eapply Hi1.
Qed.

Lemma run_invariant calls m :
  consistent m → bounded m →
  consistent (run B m calls) ∧ bounded (run B m calls).
Proof.
  revert m. induction calls as [|c calls IH]; intros m Hc Hbd; [done|].
  simpl. apply IH; [by apply step_consistent|].
  destruct c as [clk [uid evs|uid evs|uid info|uid]]; unfold step; cbn [fst snd].
  - by apply keystroke_bounded.
  - by apply mouse_bounded.
  - by apply device_bounded.
  - done.
Qed.

End Manager.

(** * The properties of the specification *)

Lemma intervals_of_ensure B m clk uid :
  intervals_of m uid = keystroke_intervals (p_keystroke (ensure_profile B clk m uid).2).
Proof.
  rewrite <- (ensure_profile_intervals B m clk uid uid).
  unfold intervals_of. by rewrite ensure_profile_lookup.
Qed.

Lemma buffer_of_insert (bufs : gmap string (list nat)) m uid buf :
  behavior_buffer m = <[uid := buf]> bufs → buffer_of m uid = buf.
Proof. unfold buffer_of. intros ->. by rewrite lookup_insert_eq. Qed.

Lemma intervals_of_insert (ps : gmap string profile) m uid p :
  user_profiles m = <[uid := p]> ps →
  intervals_of m uid = keystroke_intervals (p_keystroke p).
Proof. unfold intervals_of. intros ->. by rewrite lookup_insert_eq. Qed.

(** C1: a profile is created with [baseline_established] false, and once the
    flag of a user is true no sequence of [process_keystroke_data],
    [process_mouse_data], [process_device_data] and [get_security_score]
    calls, for that user or for others, makes it false again. *)
Theorem C1_baseline_never_reverts (B : backend) :
  (∀ clk m uid,
     baseline_established (create_user_profile B clk m uid).2 = false ∧
     established (create_user_profile B clk m uid).1 uid = false) ∧
  (∀ m calls uid,
     established m uid = true → established (run B m calls) uid = true).
Proof.
  split.
  - intros clk m uid. split; [done|].
    unfold established. simpl. by rewrite lookup_insert_eq.
  - intros m calls uid. apply run_flag_kept.
Qed.

Lemma C1_witness :
  established (run sample_backend (new_manager sample_heap) untrained_trace) "u" = true ∧
  established
    (run sample_backend
       (run sample_backend (new_manager sample_heap) untrained_trace)
       [(sample_clock "t2" "t3", Mouse "u" [20; 21]);
        (sample_clock "t4" "t5", Device "u" {[ "ip_address" := PStr "1.2.3.4" ]});
        (sample_clock "t6" "t7", Score "u");
        (sample_clock "t8" "t9", Keystroke "u" [20; 21])]) "u" = true.
Proof.
  split; [vm_compute; reflexivity|].
  apply (proj2 (C1_baseline_never_reverts sample_backend)).
  vm_compute. reflexivity.
Defined.

(** C7: in every state the manager reaches, each behaviour buffer holds at
    most 50 entries and each interval history at most 1000; a further batch
    leaves as buffer (as history) a suffix of the old entries followed by
    the new ones, and what it drops from the front is exactly the overflow
    over the cap. A keystroke batch whose extraction raises changes
    neither. *)
Theorem C7_bounded_fifo (B : backend) (h : gmap nat dict) (calls : list (clock * call)) :
  let m := run B (new_manager h) calls in
  bounded m ∧
  ∀ clk uid evs,
    let mk := (process_keystroke_data B clk m uid evs).1 in
    let mm := (process_mouse_data B clk m uid evs).1 in
    match _extract_keystroke_features clk (deref (heap m) <$> evs) with
    | Raise _ =>
        buffer_of mk uid = buffer_of m uid ∧ intervals_of mk uid = intervals_of m uid
    | Ok f =>
        (∃ evicted,
           (buffer_of m uid ++ evs = evicted ++ buffer_of mk uid)%list ∧
           length evicted = (length (buffer_of m uid ++ evs) - 50)%nat) ∧
        (∃ evicted,
           (intervals_of m uid ++ new_intervals f = evicted ++ intervals_of mk uid)%list ∧
           length evicted = (length (intervals_of m uid ++ new_intervals f) - 1000)%nat)
    end ∧
    (∃ evicted,
       (buffer_of m uid ++ evs = evicted ++ buffer_of mm uid)%list ∧
       length evicted = (length (buffer_of m uid ++ evs) - 50)%nat) ∧
    intervals_of mm uid = intervals_of m uid.
Proof.
  intros m.
  destruct (run_invariant B calls (new_manager h)
              (new_manager_consistent h) (new_manager_bounded h)) as [Hc Hbd].
  fold m in Hc, Hbd. split; [done|]. intros clk uid evs mk mm. split_and!.
  - destruct (_extract_keystroke_features clk (deref (heap m) <$> evs)) as [f|e] eqn:Hx.
    + destruct (keystroke_ok B clk m uid evs f Hc Hx) as (Hp & Hb & _). fold mk in Hp, Hb.
      rewrite (buffer_of_insert _ _ _ _ Hb), (intervals_of_insert _ _ _ _ Hp).
      rewrite outcome_keystroke, (intervals_of_ensure B m clk uid). split.
      * destruct (buffered_fifo (buffer_of m uid) evs) as (ev & ? & ? & _). by exists ev.
      * destruct (update_keystroke_fifo (ensure_profile B clk m uid).2 f)
          as (ev & ? & ? & _); [|by exists ev].
        rewrite <- (intervals_of_ensure B m clk uid).
        unfold intervals_of. destruct (user_profiles m !! uid) as [p|] eqn:E; simpl; [|lia].
        by eapply Hbd.
    + subst mk. rewrite (keystroke_raise B _ _ _ _ _ Hx). cbn [fst]. split.
      * by apply ensure_profile_buffer_of.
      * apply ensure_profile_intervals.
  - destruct (mouse_ok B clk m uid evs Hc) as (_ & Hb & _). fold mm in Hb.
    rewrite (buffer_of_insert _ _ _ _ Hb).
    destruct (buffered_fifo (buffer_of m uid) evs) as (ev & ? & ? & _). by exists ev.
  - destruct (mouse_ok B clk m uid evs Hc) as (Hp & _ & _). fold mm in Hp.
    rewrite (intervals_of_insert _ _ _ _ Hp). simpl.
    symmetry. apply intervals_of_ensure.
Qed.

(** *** Scores *)

Lemma Qle_bool_false (a b : Q) : Qle_bool a b = false → (b < a)%Q.
Proof.
  intros H. apply Qnot_le_lt. intros Hle. apply Qle_bool_iff in Hle. congruence.
Qed.

Lemma margin_score_unit (margin : Q) : (0 <= margin_score margin <= 1)%Q.
Proof.
  unfold margin_score, py_max, py_min.
  destruct (Qle_bool 1 _) eqn:E1.
  - destruct (Qle_bool 1 0) eqn:E2; [apply Qle_bool_iff in E2; lra|lra].
  - apply Qle_bool_false in E1.
    destruct (Qle_bool _ 0) eqn:E2; [lra|].
    apply Qle_bool_false in E2. lra.
Qed.

Lemma margin_score_cases (margin : Q) :
  ((margin <= -(1 # 2))%Q ∧ margin_score margin == 0) ∨
  ((-(1 # 2) <= margin <= 1 # 2)%Q ∧ margin_score margin == margin + (1 # 2)) ∨
  ((1 # 2 <= margin)%Q ∧ margin_score margin == 1).
Proof.
  assert ((margin + (1 # 2)) / 1 == margin + (1 # 2)) as Hdiv by field.
  unfold margin_score, py_max, py_min.
  destruct (Qle_bool 1 _) eqn:E1.
  - apply Qle_bool_iff in E1. rewrite Hdiv in E1.
    destruct (Qle_bool 1 0) eqn:E2; [apply Qle_bool_iff in E2; lra|].
    right. right. split; [lra|reflexivity].
  - apply Qle_bool_false in E1. rewrite Hdiv in E1.
    destruct (Qle_bool _ 0) eqn:E2.
    + apply Qle_bool_iff in E2. rewrite Hdiv in E2. left. split; [lra|reflexivity].
    + apply Qle_bool_false in E2. rewrite Hdiv in E2. right. left. split; [lra|exact Hdiv].
Qed.

Lemma verdict_score_unit (prediction : Z) : (0 <= verdict_score prediction <= 1)%Q.
Proof. unfold verdict_score. destruct (Z.eqb _ _); lra. Qed.

(** Whatever the estimators do, the guarded body yields a score in the unit
    interval or raises. *)
Lemma detect_body_unit B m uid fv finish :
  (∀ model scaled prediction s,
     finish model scaled prediction = Ok s → (0 <= s <= 1)%Q) →
  (0 <= or_zero (detect_body B m uid fv finish) <= 1)%Q.
Proof.
  intros Hfin. unfold detect_body.
  destruct (get_estimator (anomaly_models m) uid) as [model|]; simpl; [|lra].
  destruct (model_truth B model) as [[]|]; simpl; [|lra|lra].
  destruct (get_estimator (scalers m) uid) as [scaler|]; simpl; [|lra].
  destruct (scaler_truth B scaler) as [[]|]; simpl; [|lra|lra].
  destruct (scaler_transform B scaler fv) as [scaled|]; simpl; [|lra].
  destruct (model_predict B model scaled) as [prediction|]; simpl; [|lra].
  destruct (finish model scaled prediction) as [s|] eqn:E; simpl; [|lra].
  by eapply Hfin.
Qed.

Lemma detect_keystroke_unit B m uid f :
  (0 <= _detect_keystroke_anomalies B m uid f <= 1)%Q.
Proof.
  unfold _detect_keystroke_anomalies. destruct (negb _); [lra|].
  apply detect_body_unit. intros model scaled _ s.
  destruct (model_decision_function B model scaled); simpl; [|done].
  intros [= <-]. apply margin_score_unit.
Qed.

Lemma detect_mouse_unit B m uid f :
  (0 <= _detect_mouse_anomalies B m uid f <= 1)%Q.
Proof.
  unfold _detect_mouse_anomalies. destruct (negb _); [lra|].
  apply detect_body_unit. intros _ _ prediction s [= <-]. apply verdict_score_unit.
Qed.

(** Without a model or without a scaler the guard answers [0.0]. *)
Lemma detect_body_missing B m uid fv finish :
  get_estimator (anomaly_models m) uid = None ∨ get_estimator (scalers m) uid = None →
  or_zero (detect_body B m uid fv finish) = 0%Q.
Proof.
  intros Hmiss. unfold detect_body.
  destruct (get_estimator (anomaly_models m) uid) as [model|]; simpl; [|done].
  destruct (model_truth B model) as [[]|]; simpl; [|done..].
  destruct Hmiss as [?|Hs]; [done|]. by rewrite Hs.
Qed.

(** An estimator the library refuses to transform with: the fault is caught. *)
Lemma detect_body_refused B m uid fv finish scaler :
  get_estimator (scalers m) uid = Some scaler →
  (∃ e, scaler_transform B scaler fv = Raise e) →
  or_zero (detect_body B m uid fv finish) = 0%Q.
Proof.
  intros Hs [e He]. unfold detect_body.
  destruct (get_estimator (anomaly_models m) uid) as [model|]; simpl; [|done].
  destruct (model_truth B model) as [[]|]; simpl; [|done..].
  rewrite Hs. destruct (scaler_truth B scaler) as [[]|]; simpl; [|done..].
  by rewrite He.
Qed.

(** A model that is not usable: its truth test raises or is false, or it
    refuses to predict. Whatever the scaler is, the guard or the handler
    answers [0.0]. *)
Lemma detect_body_untrained B m uid fv finish model :
  get_estimator (anomaly_models m) uid = Some model →
  (∃ e, model_truth B model = Raise e) ∨ model_truth B model = Ok false ∨
  (∀ x, ∃ e, model_predict B model x = Raise e) →
  or_zero (detect_body B m uid fv finish) = 0%Q.
Proof.
  intros Hm Hbad. unfold detect_body. rewrite Hm.
  destruct Hbad as [[e He]|[Hf|Hp]].
  - by rewrite He.
  - by rewrite Hf.
  - destruct (model_truth B model) as [[]|]; simpl; [|done..].
    destruct (get_estimator (scalers m) uid) as [scaler|]; simpl; [|done].
    destruct (scaler_truth B scaler) as [[]|]; simpl; [|done..].
    destruct (scaler_transform B scaler fv) as [scaled|]; simpl; [|done].
    destruct (Hp scaled) as [e He]. by rewrite He.
Qed.

(** C4, as the code has it: with the backend unavailable both detectors
    return the sentinel 0.1. With the backend available they return 0.0
    whenever no trained model or scaler exists for the user: when no model,
    or no scaler, is stored; when the stored scaler is one the library
    refuses to transform with (an unfitted one), whatever the model; and
    when the stored model is one whose truth test raises or fails or which
    the library refuses to predict with (an unfitted one), whatever the
    scaler, a fitted one included. The detectors are total: no case
    raises. *)
Theorem C4_scores_without_model (B : backend) (m : manager) (uid : string)
    (kf : option keystroke_features) (mf : option mouse_features) :
  (SKLEARN_AVAILABLE B = false →
     _detect_keystroke_anomalies B m uid kf = 1 # 10 ∧
     _detect_mouse_anomalies B m uid mf = 1 # 10) ∧
  (SKLEARN_AVAILABLE B = true →
     get_estimator (anomaly_models m) uid = None ∨ get_estimator (scalers m) uid = None →
     _detect_keystroke_anomalies B m uid kf = 0%Q ∧
     _detect_mouse_anomalies B m uid mf = 0%Q) ∧
  (SKLEARN_AVAILABLE B = true →
     ∀ scaler, get_estimator (scalers m) uid = Some scaler →
     (∀ fv, ∃ e, scaler_transform B scaler fv = Raise e) →
     _detect_keystroke_anomalies B m uid kf = 0%Q ∧
     _detect_mouse_anomalies B m uid mf = 0%Q) ∧
  (SKLEARN_AVAILABLE B = true →
     ∀ model, get_estimator (anomaly_models m) uid = Some model →
     (∃ e, model_truth B model = Raise e) ∨ model_truth B model = Ok false ∨
     (∀ x, ∃ e, model_predict B model x = Raise e) →
     _detect_keystroke_anomalies B m uid kf = 0%Q ∧
     _detect_mouse_anomalies B m uid mf = 0%Q).
Proof.
  unfold _detect_keystroke_anomalies, _detect_mouse_anomalies.
  split; [|split; [|split]].
  - by intros ->.
  - intros -> Hmiss. simpl. by rewrite !detect_body_missing.
  - intros -> scaler Hs Href. simpl.
    by rewrite !(detect_body_refused _ _ _ _ _ scaler).
  - intros -> model Hm Hbad. simpl.
    by rewrite !(detect_body_untrained _ _ _ _ _ model).
Qed.

(** C4 as worded fails: with the backend available and nothing stored for
    the user, the detectors return 0.0, which is not the sentinel; so they
    do in the state a user is in after the baseline transition, where the
    scaler is fitted and the stored model is not. *)
Lemma C4_counterexample :
  SKLEARN_AVAILABLE sample_backend = true ∧
  get_estimator (anomaly_models (new_manager ∅)) "u" = None ∧
  _detect_keystroke_anomalies sample_backend (new_manager ∅) "u" None = 0%Q ∧
  _detect_mouse_anomalies sample_backend (new_manager ∅) "u" None = 0%Q ∧
  (let m := run sample_backend (new_manager sample_heap) trained_trace in
   get_estimator (anomaly_models m) "u" = Some Unfitted ∧
   get_estimator (scalers m) "u" = Some (Fitted [[2; 1; 0; 0]]%Q) ∧
   _detect_keystroke_anomalies sample_backend m "u" None = 0%Q ∧
   _detect_mouse_anomalies sample_backend m "u" None = 0%Q) ∧
  ¬ (0 == 1 # 10)%Q.
Proof.
  split_and!; try reflexivity.
  - intros m. split_and!; vm_compute; reflexivity.
  - intros H. discriminate H.
Qed.

Lemma C4_witness :
  (_detect_keystroke_anomalies no_backend (new_manager ∅) "u" None = 1 # 10 ∧
   _detect_mouse_anomalies no_backend (new_manager ∅) "u" None = 1 # 10) ∧
  (_detect_keystroke_anomalies sample_backend (new_manager ∅) "u" None = 0%Q ∧
   _detect_mouse_anomalies sample_backend (new_manager ∅) "u" None = 0%Q) ∧
  (_detect_keystroke_anomalies plain_backend
     (run plain_backend (new_manager sample_heap) untrained_trace) "u" None = 0%Q ∧
   _detect_mouse_anomalies plain_backend
     (run plain_backend (new_manager sample_heap) untrained_trace) "u" None = 0%Q) ∧
  (_detect_keystroke_anomalies sample_backend
     (run sample_backend (new_manager sample_heap) trained_trace) "u" None = 0%Q ∧
   _detect_mouse_anomalies sample_backend
     (run sample_backend (new_manager sample_heap) trained_trace) "u" None = 0%Q).
Proof.
  pose proof (C4_scores_without_model no_backend (new_manager ∅) "u" None None)
    as (H1 & _ & _ & _).
  pose proof (C4_scores_without_model sample_backend (new_manager ∅) "u" None None)
    as (_ & H2 & _ & _).
  pose proof (C4_scores_without_model plain_backend
                (run plain_backend (new_manager sample_heap) untrained_trace)
                "u" None None) as (_ & _ & H3 & _).
  pose proof (C4_scores_without_model sample_backend
                (run sample_backend (new_manager sample_heap) trained_trace)
                "u" None None) as (_ & _ & _ & H4).
  split; [|split; [|split]].
  - apply H1. reflexivity.
  - apply H2; [reflexivity|]. left. reflexivity.
  - apply (H3 eq_refl Unfitted); [vm_compute; reflexivity|].
    intros fv. exists EstimatorError. reflexivity.
  - apply (H4 eq_refl Unfitted); [vm_compute; reflexivity|].
    left. exists EstimatorError. reflexivity.
Defined.

(** *** The baseline transition *)

Lemma sufficient_iff (p : profile) :
  _check_baseline_sufficient p = true ↔
  (50 ≤ length (keystroke_intervals (p_keystroke p)))%nat ∨
  (20 ≤ length (click_patterns (p_mouse p)))%nat.
Proof.
  unfold _check_baseline_sufficient.
  rewrite orb_true_iff, !bool_decide_eq_true. done.
Qed.

Lemma established_insert (ps : gmap string profile) m uid p :
  user_profiles m = <[uid := p]> ps → established m uid = baseline_established p.
Proof. unfold established. intros ->. by rewrite lookup_insert_eq. Qed.



(** C3, on the code: [process_mouse_data] leaves the flag of the user as it
    found it, for every state and batch. At the failing input, the twentieth
    click batch of a user brings the click history to the 20 entries the
    sufficiency check asks for, and the flag stays false; the empty
    keystroke batch that follows is what sets it. *)
Theorem C3_mouse_batch_skips_baseline_check :
  (∀ B clk m uid evs,
     established (process_mouse_data B clk m uid evs).1 uid = established m uid) ∧
  let m19 := run sample_backend (new_manager sample_heap) (click_batches 19) in
  let m20 := (process_mouse_data sample_backend (sample_clock "t0" "t1") m19 "u" [19]).1 in
  let m21 := (process_keystroke_data sample_backend (sample_clock "t0" "t1") m20 "u" []).1 in
  established m19 "u" = false ∧ sufficient_now m19 "u" = false ∧
  sufficient_now m20 "u" = true ∧ established m20 "u" = false ∧
  established m21 "u" = true.
Proof.
  split; [intros; apply mouse_flag|].
  vm_compute. done.
Qed.





(** *** Re-extraction over the buffer *)

Lemma get_is_exclusive (e : dict) (k s t : string) :
  get_is e k s = true → s ≠ t → get_is e k t = false.
Proof.
  unfold get_is. destruct (dict_get e k) as [|q|s']; simpl; try done.
  intros Hs%String.eqb_eq Hne. subst s'. by apply String.eqb_neq.
Qed.

Lemma keydown_times_none clk i (events : list dict) :
  Forall (fun e => get_is e "type" "keydown" = false) events →
  keydown_times clk i events = [].
Proof.
  intros H. revert i. induction H as [|e events He _ IH]; intros i; simpl; [done|].
  by rewrite He.
Qed.

Lemma count_events_none (events : list dict) f :
  Forall (fun e => get_is e "type" "click" = false ∧ get_is e "type" "scroll" = false)
    events →
  count_events events f = f.
Proof.
  intros H. induction H as [|e events [Hc Hs] _ IH]; simpl; [done|].
  by rewrite Hc, Hs.
Qed.

Lemma filter_tag_Forall (tag : string) (events : list dict) (P : dict → Prop) :
  (∀ e, get_is e "type" tag = true → P e) →
  Forall P (filter (fun e => get_is e "type" tag = true) events).
Proof.
  intros HP. apply Forall_forall. intros e [He _]%list_elem_of_filter. by apply HP.
Qed.

(** The keystroke-tagged events hold no key press: their features are zero. *)
Lemma extract_keystroke_tagged clk (events : list dict) :
  let ks := filter (fun e => get_is e "type" "keystroke" = true) events in
  _extract_keystroke_features clk ks =
    Ok (match ks with [] => None | _ => Some zero_keystroke_features end).
Proof.
  intros ks. unfold _extract_keystroke_features.
  rewrite keydown_times_none.
  - by destruct ks.
  - apply filter_tag_Forall. intros e He. by apply (get_is_exclusive e _ _ _ He).
Qed.

(** The mouse-tagged events hold no click and no scroll. *)
Lemma extract_mouse_tagged (events : list dict) :
  let ms := filter (fun e => get_is e "type" "mouse" = true) events in
  _extract_mouse_features ms =
    match ms with [] => None | _ => Some zero_mouse_features end.
Proof.
  intros ms. unfold _extract_mouse_features.
  rewrite count_events_none.
  - by destruct ms.
  - apply filter_tag_Forall. intros e He.
    split; by apply (get_is_exclusive e _ _ _ He).
Qed.

Lemma analyze_zero B clk m uid (events : list dict) :
  _analyze_recent_behavior B clk m uid events = Ok (zero_findings B clk m uid events).
Proof.
  unfold _analyze_recent_behavior, zero_findings.
  pose proof (extract_keystroke_tagged clk events) as Hk.
  pose proof (extract_mouse_tagged events) as Hm. cbv zeta in Hk, Hm.
  rewrite Hm.
  destruct (filter (fun e => get_is e "type" "keystroke" = true) events) as [|e ks];
    destruct (filter (fun e => get_is e "type" "mouse" = true) events) as [|e' ms];
    cbv beta iota; rewrite ?Hk; done.
Qed.

Lemma zero_findings_length B clk m uid events :
  (length (zero_findings B clk m uid events) ≤ 2)%nat.
Proof.
  unfold zero_findings. rewrite length_app.
  repeat case_match; simpl; lia.
Qed.

Lemma zero_findings_clock B clk clk' m uid events :
  length (zero_findings B clk m uid events) = length (zero_findings B clk' m uid events).
Proof.
  unfold zero_findings. rewrite !length_app.
  repeat case_match; simpl; lia.
Qed.

Lemma security_score_known B clk m uid p :
  user_profiles m !! uid = Some p →
  get_security_score B clk m uid =
    Ok {| sa_user_id := uid;
          security_score := Z.max 0 (Z.min 100 (100 - Z.of_nat (recent_count B clk m uid) * 10));
          risk_level := risk_of (recent_count B clk m uid);
          anomalies_count := recent_count B clk m uid;
          sa_baseline_established := baseline_established p;
          sa_timestamp := Some (clk_result clk) |}.
Proof.
  intros Hp. unfold get_security_score, recent_count, buffer_of. rewrite Hp.
  destruct (default [] (behavior_buffer m !! uid)) as [|l evs]; simpl; [done|].
  change (deref (heap m) l :: (deref (heap m) <$> evs))
    with (deref (heap m) <$> l :: evs).
  by rewrite analyze_zero.
Qed.

Lemma security_score_unknown B clk m uid :
  user_profiles m !! uid = None →
  get_security_score B clk m uid = Ok (unknown_assessment uid).
Proof. intros Hp. unfold get_security_score. by rewrite Hp. Qed.

Lemma recent_count_le B clk m uid : (recent_count B clk m uid ≤ 2)%nat.
Proof.
  unfold recent_count. destruct (buffer_of m uid); [lia|]. apply zero_findings_length.
Qed.

Lemma recent_count_clock B clk clk' m uid :
  recent_count B clk m uid = recent_count B clk' m uid.
Proof.
  unfold recent_count. destruct (buffer_of m uid); [done|]. apply zero_findings_clock.
Qed.

Lemma risk_of_tiers (n : nat) :
  (n = 0%nat → risk_of n = "low") ∧
  ((1 ≤ n ≤ 2)%nat → risk_of n = "medium") ∧
  ((2 < n)%nat → risk_of n = "high").
Proof. unfold risk_of. repeat case_decide; split_and!; intros; (done || lia). Qed.

(** C6: [get_security_score] always returns a record. For a user with a
    profile its score is max(0, min(100, 100 - anomalies_count * 10)) and its
    risk level is low for no anomaly, medium for one or two, high for more;
    it reports the flag of the profile. For a user without a profile it is
    score 0, risk unknown, no anomaly, baseline not established. *)
Theorem C6_security_score (B : backend) (clk : clock) (m : manager) (uid : string) :
  ∃ r, get_security_score B clk m uid = Ok r ∧
       (user_profiles m !! uid = None →
          sa_user_id r = uid ∧ security_score r = 0%Z ∧ risk_level r = "unknown" ∧
          anomalies_count r = 0%nat ∧ sa_baseline_established r = false) ∧
       (∀ p, user_profiles m !! uid = Some p →
          security_score r =
            Z.max 0 (Z.min 100 (100 - Z.of_nat (anomalies_count r) * 10)) ∧
          (anomalies_count r = 0%nat → risk_level r = "low") ∧
          ((1 ≤ anomalies_count r ≤ 2)%nat → risk_level r = "medium") ∧
          ((2 < anomalies_count r)%nat → risk_level r = "high") ∧
          sa_baseline_established r = baseline_established p).
Proof.
  destruct (user_profiles m !! uid) as [p|] eqn:Hp.
  - eexists. split; [by apply security_score_known|]. split; [done|].
    intros ? [= <-]. simpl.
    destruct (risk_of_tiers (recent_count B clk m uid)) as (? & ? & ?). done.
  - eexists. split; [by apply security_score_unknown|]. split; done.
Qed.

Lemma C6_witness :
  let m := run sample_backend (new_manager sample_heap) trained_trace in
  let clk := sample_clock "t2" "t3" in
  (∃ r, get_security_score sample_backend clk m "nobody" = Ok r ∧
        security_score r = 0%Z ∧ risk_level r = "unknown") ∧
  (∃ r, get_security_score sample_backend clk m "u" = Ok r ∧
        security_score r = 100%Z ∧ risk_level r = "low" ∧
        sa_baseline_established r = true).
Proof.
  intros m clk. split.
  - destruct (C6_security_score sample_backend clk m "nobody") as (r & Hr & Hnone & _).
    exists r. split; [exact Hr|].
    assert (user_profiles m !! "nobody" = None) as Hn by (vm_compute; reflexivity).
    destruct (Hnone Hn) as (_ & ? & ? & _). split; assumption.
  - destruct (C6_security_score sample_backend clk m "u") as (r & Hr & _ & Hsome).
    exists r. split; [exact Hr|].
    assert (get_security_score sample_backend clk m "u" =
            Ok {| sa_user_id := "u"; security_score := 100; risk_level := "low";
                  anomalies_count := 0; sa_baseline_established := true;
                  sa_timestamp := Some "t3" |}) as Hval by (vm_compute; reflexivity).
    assert (user_profiles m !! "u" =
            Some (default (new_profile "" "") (user_profiles m !! "u"))) as Hp
      by (vm_compute; reflexivity).
    destruct (Hsome _ Hp) as (_ & Hlow & _ & _ & _).
    clear Hsome Hp.
    rewrite Hval in Hr. injection Hr as <-.
    split; [reflexivity|]. split; [|reflexivity].
    exact (Hlow eq_refl).
Defined.

(** C9, as the code has it: [get_security_score] reads the manager and
    changes nothing, so two consecutive calls run on the same state; both
    return a record, the two records agree on user id, score, risk level,
    anomaly count and baseline flag, and for a user with a profile each
    carries as timestamp the clock reading of its own call; for a user
    without a profile the records are identical. *)
Theorem C9_repeated_assessment (B : backend) (clk1 clk2 : clock) (m : manager)
    (uid : string) :
  ∃ r1 r2,
    get_security_score B clk1 m uid = Ok r1 ∧
    get_security_score B clk2 m uid = Ok r2 ∧
    sa_user_id r1 = sa_user_id r2 ∧
    security_score r1 = security_score r2 ∧
    risk_level r1 = risk_level r2 ∧
    anomalies_count r1 = anomalies_count r2 ∧
    sa_baseline_established r1 = sa_baseline_established r2 ∧
    match user_profiles m !! uid with
    | None => r1 = r2
    | Some _ => sa_timestamp r1 = Some (clk_result clk1) ∧
                sa_timestamp r2 = Some (clk_result clk2)
    end.
Proof.
  destruct (user_profiles m !! uid) as [p|] eqn:Hp.
  - do 2 eexists. split; [by apply security_score_known|].
    split; [by apply security_score_known|]. simpl.
    rewrite (recent_count_clock B clk1 clk2). done.
  - do 2 eexists. split; [by apply security_score_unknown|].
    split; [by apply security_score_unknown|]. done.
Qed.

(** C9 as worded fails: two consecutive calls for a user with a
    profile, read at different times, return records that differ in their
    timestamp. *)
Lemma C9_counterexample :
  let m := run sample_backend (new_manager sample_heap) trained_trace in
  step sample_backend m (sample_clock "t2" "t3", Score "u") = m ∧
  get_security_score sample_backend (sample_clock "t2" "t3") m "u" ≠
  get_security_score sample_backend (sample_clock "t2" "t4") m "u".
Proof.
  intros m. split; [reflexivity|]. vm_compute. intros H. discriminate H.
Qed.

(** *** Tagging in place *)

Lemma tag_event_type tag now (e : dict) : tag_event tag now e !! "type" = Some (PStr tag).
Proof. unfold tag_event. rewrite lookup_insert_ne by done. apply lookup_insert_eq. Qed.

Lemma tag_event_timestamp tag now (e : dict) :
  tag_event tag now e !! "timestamp" = Some (PStr now).
Proof. unfold tag_event. apply lookup_insert_eq. Qed.

Lemma tag_events_other tag clk i (h : gmap nat dict) (evs : list nat) (l : nat) :
  l ∉ evs → tag_events tag clk i h evs !! l = h !! l.
Proof.
  revert i h. induction evs as [|l0 rest IH]; intros i h Hnot; simpl; [done|].
  apply not_elem_of_cons in Hnot as [Hne Hrest].
  rewrite IH by done. by rewrite lookup_insert_ne.
Qed.

(** An event of the batch ends up as the tagged version of some dict, with
    the reading of one of the loop's iterations. *)
Lemma tag_events_in tag clk i (h : gmap nat dict) (evs : list nat) (l : nat) :
  l ∈ evs →
  ∃ j e, (j < length evs)%nat ∧
         tag_events tag clk i h evs !! l = Some (tag_event tag (clk_event clk (i + j)) e).
Proof.
  revert i h. induction evs as [|l0 rest IH]; intros i h Hin; [by apply elem_of_nil in Hin|].
  simpl. destruct (decide (l ∈ rest)) as [Hrest|Hrest].
  - destruct (IH (S i) (<[l0 := tag_event tag (clk_event clk i) (deref h l0)]> h) Hrest)
      as (j & e & Hj & He).
    exists (S j), e. split; [lia|]. by rewrite Nat.add_succ_r.
  - apply elem_of_cons in Hin as [->|?]; [|done].
    exists 0%nat, (deref h l0). split; [lia|].
    rewrite tag_events_other by done. by rewrite Nat.add_0_r, lookup_insert_eq.
Qed.

Lemma tag_events_tagged tag clk i (h : gmap nat dict) (evs : list nat) (l : nat) :
  tag = "keystroke" ∨ tag = "mouse" →
  tagged (deref h l) → tagged (deref (tag_events tag clk i h evs) l).
Proof.
  intros Htag Hold. destruct (decide (l ∈ evs)) as [Hin|Hnot].
  - destruct (tag_events_in tag clk i h evs l Hin) as (j & e & _ & He).
    unfold tagged, deref. rewrite He. simpl. rewrite tag_event_type.
    destruct Htag as [->| ->]; [by left|by right].
  - unfold deref. by rewrite tag_events_other.
Qed.

Lemma buffered_subseteq (buf evs : list nat) (l : nat) :
  l ∈ buffered buf evs → l ∈ (buf ++ evs)%list.
Proof.
  unfold buffered, last_n. case_decide; [|done]. apply subseteq_drop.
Qed.

Section Tagging.
Context (B : backend).

Lemma new_manager_tagged h : buffer_tagged (new_manager h).
Proof. intros u buf l. simpl. by rewrite lookup_empty. Qed.

Lemma ensure_profile_tagged m clk uid :
  buffer_tagged m → buffer_tagged (ensure_profile B clk m uid).1.
Proof.
  intros Ht. unfold ensure_profile. destruct (user_profiles m !! uid); simpl; [done|].
  intros u buf l. simpl. destruct (decide (uid = u)) as [->|Hne].
  - rewrite lookup_insert_eq. intros [= <-] Hin. by apply elem_of_nil in Hin.
  - rewrite lookup_insert_ne by done. apply Ht.
Qed.

Lemma batch_tagged tag clk m1 m' uid (evs : list nat) :
  tag = "keystroke" ∨ tag = "mouse" →
  buffer_tagged m1 →
  behavior_buffer m' = <[uid := buffered (buffer_of m1 uid) evs]> (behavior_buffer m1) →
  heap m' = tag_events tag clk 0 (heap m1) evs →
  buffer_tagged m'.
Proof.
  intros Htag Ht Hb Hh u buf l. rewrite Hb, Hh.
  destruct (decide (uid = u)) as [->|Hne].
  - rewrite lookup_insert_eq. intros [= <-] Hin.
    apply buffered_subseteq, elem_of_app in Hin as [Hold|Hnew].
    + apply tag_events_tagged; [done|]. unfold buffer_of in Hold.
      destruct (behavior_buffer m1 !! u) as [b|] eqn:Eb; simpl in Hold.
      * by eapply Ht.
      * by apply elem_of_nil in Hold.
    + destruct (tag_events_in tag clk 0 (heap m1) evs l Hnew) as (j & e & _ & He).
      unfold tagged, deref. rewrite He. simpl. rewrite tag_event_type.
      destruct Htag as [->| ->]; [by left|by right].
  - rewrite lookup_insert_ne by done. intros Hl Hin.
    apply tag_events_tagged; [done|]. by eapply Ht.
Qed.

Lemma step_tagged m c : consistent m → buffer_tagged m → buffer_tagged (step B m c).
Proof.
  intros Hc Ht. destruct c as [clk [uid evs|uid evs|uid info|uid]]; unfold step; cbn [fst snd].
  - pose proof (ensure_profile_tagged m clk uid Ht) as Ht1.
    destruct (_extract_keystroke_features clk (deref (heap m) <$> evs)) as [f|e] eqn:Hx.
    + destruct (keystroke_ok B clk m uid evs f Hc Hx) as (_ & Hb & Hh).
      rewrite <- (ensure_profile_buffer_of B m clk uid uid Hc) in Hb.
      rewrite <- (ensure_profile_heap B m clk uid) in Hh.
      eapply (batch_tagged "keystroke"); [by left|exact Ht1|exact Hb|exact Hh].
    + by rewrite (keystroke_raise B _ _ _ _ _ Hx).
  - pose proof (ensure_profile_tagged m clk uid Ht) as Ht1.
    destruct (mouse_ok B clk m uid evs Hc) as (_ & Hb & Hh).
    rewrite <- (ensure_profile_buffer_of B m clk uid uid Hc) in Hb.
    rewrite <- (ensure_profile_heap B m clk uid) in Hh.
    eapply (batch_tagged "mouse"); [by right|exact Ht1|exact Hb|exact Hh].
  - pose proof (ensure_profile_tagged m clk uid Ht) as Ht1.
    by destruct (device_shape B clk m uid info) as [->|(p & -> & _)].
  - done.
Qed.

Lemma run_tagged calls m :
  consistent m → buffer_tagged m → buffer_tagged (run B m calls).
Proof.
  revert m. induction calls as [|c calls IH]; intros m Hc Ht; [done|].
  simpl. apply IH; [by apply step_consistent|by apply step_tagged].
Qed.

End Tagging.

(** C10, as the code has it: in every state the manager reaches, every
    buffered event carries the tag keystroke or mouse. A mouse batch, and a
    keystroke batch whose feature extraction does not raise, overwrite in
    place the type of each event of the batch with the modality tag and its
    timestamp with a clock reading of the tagging loop. The analysis behind
    [get_security_score] re-extracts features from the events tagged
    keystroke and from those tagged mouse, finds no key press, click or
    scroll among them, and so scores zero features only. *)
Theorem C10_events_tagged_in_place (B : backend) (h : gmap nat dict)
    (calls : list (clock * call)) :
  let m := run B (new_manager h) calls in
  buffer_tagged m ∧
  (∀ clk uid (evs : list nat) (l : nat), l ∈ evs →
     let mm := (process_mouse_data B clk m uid evs).1 in
     let mk := (process_keystroke_data B clk m uid evs).1 in
     (deref (heap mm) l !! "type" = Some (PStr "mouse") ∧
      ∃ j, (j < length evs)%nat ∧
           deref (heap mm) l !! "timestamp" = Some (PStr (clk_event clk j))) ∧
     (∀ f, _extract_keystroke_features clk (deref (heap m) <$> evs) = Ok f →
        deref (heap mk) l !! "type" = Some (PStr "keystroke") ∧
        ∃ j, (j < length evs)%nat ∧
             deref (heap mk) l !! "timestamp" = Some (PStr (clk_event clk j)))) ∧
  (∀ clk (events : list dict),
     let ks := filter (fun e => get_is e "type" "keystroke" = true) events in
     let ms := filter (fun e => get_is e "type" "mouse" = true) events in
     _extract_keystroke_features clk ks =
       Ok (match ks with [] => None | _ => Some zero_keystroke_features end) ∧
     _extract_mouse_features ms =
       match ms with [] => None | _ => Some zero_mouse_features end) ∧
  (∀ clk uid (events : list dict),
     _analyze_recent_behavior B clk m uid events = Ok (zero_findings B clk m uid events)).
Proof.
  intros m.
  pose proof (run_consistent B calls (new_manager h) (new_manager_consistent h)) as Hc.
  fold m in Hc. split_and!.
  - apply run_tagged; [apply new_manager_consistent|apply new_manager_tagged].
  - intros clk uid evs l Hin mm mk. split.
    + destruct (mouse_ok B clk m uid evs Hc) as (_ & _ & Hh). fold mm in Hh.
      destruct (tag_events_in "mouse" clk 0 (heap m) evs l Hin) as (j & e & Hj & He).
      unfold deref. rewrite Hh, He. simpl.
      split; [apply tag_event_type|]. exists j. split; [done|apply tag_event_timestamp].
    + intros f Hx.
      destruct (keystroke_ok B clk m uid evs f Hc Hx) as (_ & _ & Hh). fold mk in Hh.
      destruct (tag_events_in "keystroke" clk 0 (heap m) evs l Hin) as (j & e & Hj & He).
      unfold deref. rewrite Hh, He. simpl.
      split; [apply tag_event_type|]. exists j. split; [done|apply tag_event_timestamp].
  - intros clk events. split; [apply extract_keystroke_tagged|apply extract_mouse_tagged].
  - intros. apply analyze_zero.
Qed.

Lemma C10_witness :
  let clk := sample_clock "t0" "t1" in
  let m := run sample_backend (new_manager sample_heap) [] in
  (deref (heap (process_mouse_data sample_backend clk m "u" [0; 1]).1) 1 !! "type"
     = Some (PStr "mouse") ∧
   ∃ j, (j < 2)%nat ∧
        deref (heap (process_mouse_data sample_backend clk m "u" [0; 1]).1) 1 !! "timestamp"
          = Some (PStr (clk_event clk j))) ∧
  (deref (heap (process_keystroke_data sample_backend clk m "u" [22; 23]).1) 23 !! "type"
     = Some (PStr "keystroke") ∧
   ∃ j, (j < 2)%nat ∧
        deref (heap (process_keystroke_data sample_backend clk m "u" [22; 23]).1) 23
          !! "timestamp" = Some (PStr (clk_event clk j))).
Proof.
  intros clk m.
  pose proof (C10_events_tagged_in_place sample_backend sample_heap []) as H.
  cbv zeta in H. destruct H as (_ & H & _). split.
  - apply (H clk "u" [0; 1]%nat 1%nat). apply list_elem_of_further, list_elem_of_here.
  - eapply (H clk "u" [22; 23]%nat 23%nat).
    + apply list_elem_of_further, list_elem_of_here.
    + vm_compute. reflexivity.
Defined.

(** C10 as worded fails for a keystroke batch on which feature extraction
    raises: two key presses with the same timestamp make the largest
    interval 0, the division raises before the tagging loop, and the events
    keep their type and are not buffered. *)
Lemma C10_counterexample :
  let clk := sample_clock "t0" "t1" in
  let r := process_keystroke_data sample_backend clk (new_manager sample_heap) "u" [20; 21] in
  r_error r.2 = Some ZeroDivisionError ∧
  deref (heap r.1) 20 !! "type" = Some (PStr "keydown") ∧
  deref (heap r.1) 20 !! "timestamp" = Some (PNum 5) ∧
  deref (heap r.1) 20 !! "type" ≠ Some (PStr "keystroke") ∧
  buffer_of r.1 "u" = [].
Proof.
  intros clk r. split_and!; try (vm_compute; reflexivity).
  vm_compute. intros H. discriminate H.
Qed.

(** *** Device snapshots *)

Lemma check_field_found (stored info : dict) k description severity found v :
  stored !! k = Some v →
  check_field stored info k description severity found =
    Ok (found ++ (if changed v (dict_get info k)
                  then [device_entry description severity] else []))%list.
Proof.
  intros Hk. unfold check_field, changed. rewrite Hk.
  destruct (truthy v && negb (py_eq v (dict_get info k))); [done|].
  by rewrite app_nil_r.
Qed.

Lemma update_lookup (info stored : dict) (k : string) :
  (info ∪ stored) !! k = match info !! k with Some v => Some v | None => stored !! k end.
Proof.
  rewrite lookup_union. by destruct (info !! k), (stored !! k).
Qed.

Lemma changed_iff (v w : pyval) :
  changed v w = true ↔ truthy v = true ∧ py_eq v w = false.
Proof.
  unfold changed. rewrite andb_true_iff, negb_true_iff. done.
Qed.

(** The entries are told apart by their field: each is there once, exactly
    when its field changed, and nothing else is. *)
Lemma device_findings_entries (res br ip : pyval) (info : dict) :
  let found := device_findings res br ip info in
  NoDup found ∧
  (device_entry "Screen resolution changed" "medium" ∈ found ↔
     changed res (dict_get info "screen_resolution") = true) ∧
  (device_entry "Browser information changed" "low" ∈ found ↔
     changed br (dict_get info "browser_info") = true) ∧
  (device_entry "IP address changed - potential location change" "high" ∈ found ↔
     changed ip (dict_get info "ip_address") = true) ∧
  (∀ e, e ∈ found →
        e = device_entry "Screen resolution changed" "medium" ∨
        e = device_entry "Browser information changed" "low" ∨
        e = device_entry "IP address changed - potential location change" "high").
Proof.
  unfold device_findings, device_entry.
  destruct (changed res _), (changed br _), (changed ip _); simpl; split_and!;
    try (repeat (apply NoDup_cons; split;
                 [intros Hin;
                  repeat (apply elem_of_cons in Hin as [Hin|Hin]; [discriminate Hin|]);
                  by apply elem_of_nil in Hin|]);
         apply NoDup_nil_2);
    try (split;
         [intros Hin; first
            [reflexivity
            |repeat (apply elem_of_cons in Hin as [Hin|Hin]; [discriminate Hin|]);
             by apply elem_of_nil in Hin]
         |intros Hb; first [discriminate Hb|repeat constructor]]);
    intros e Hin;
    repeat (apply elem_of_cons in Hin as [->|Hin]; [auto|]);
    by apply elem_of_nil in Hin.
Qed.

(** C8, as the code has it: against a profile that holds the three compared
    fields, a snapshot yields, in this order, at most one entry per field,
    with severity medium for the screen resolution, low for the browser
    information and high for the IP address, and the entry of a field is
    there exactly when its stored value is truthy (neither [None], nor
    zero, nor the empty string) and differs from what the snapshot has under
    the key, [None] when the key is missing. A stored [None] yields no
    entry. After the comparison each key the snapshot has holds the
    snapshot's value, and each key it lacks keeps the stored one. *)
Theorem C8_device_anomalies (B : backend) (clk : clock) (m : manager) (uid : string)
    (device_info : dict) (res br ip : pyval) :
  let stored := device_patterns (ensure_profile B clk m uid).2 in
  let r := process_device_data B clk m uid device_info in
  let found := d_anomalies_detected r.2 in
  stored !! "screen_resolution" = Some res →
  stored !! "browser_info" = Some br →
  stored !! "ip_address" = Some ip →
  found = device_findings res br ip device_info ∧
  NoDup found ∧
  (device_entry "Screen resolution changed" "medium" ∈ found ↔
     truthy res = true ∧ py_eq res (dict_get device_info "screen_resolution") = false) ∧
  (device_entry "Browser information changed" "low" ∈ found ↔
     truthy br = true ∧ py_eq br (dict_get device_info "browser_info") = false) ∧
  (device_entry "IP address changed - potential location change" "high" ∈ found ↔
     truthy ip = true ∧ py_eq ip (dict_get device_info "ip_address") = false) ∧
  (∀ e, e ∈ found →
        e = device_entry "Screen resolution changed" "medium" ∨
        e = device_entry "Browser information changed" "low" ∨
        e = device_entry "IP address changed - potential location change" "high") ∧
  truthy PNone = false ∧
  d_error r.2 = None ∧
  ∀ k, stored_device r.1 uid k =
         match device_info !! k with
         | Some v => Some v
         | None => stored !! k
         end.
Proof.
  intros stored r found Hres Hbr Hip.
  assert (found = device_findings res br ip device_info ∧ d_error r.2 = None ∧
          ∀ k, stored_device r.1 uid k =
                 match device_info !! k with Some v => Some v | None => stored !! k end)
    as (Hfound & Herr & Hstored).
  { subst stored r found. unfold process_device_data.
    destruct (ensure_profile B clk m uid) as [m1 p]. simpl in *.
    rewrite (check_field_found _ _ _ _ _ _ _ Hres).
    rewrite (check_field_found _ _ _ _ _ _ _ Hbr).
    rewrite (check_field_found _ _ _ _ _ _ _ Hip). simpl.
    split_and!; [by rewrite <- app_assoc|done|].
    intros k. unfold stored_device. simpl. rewrite lookup_insert_eq. simpl.
    apply update_lookup. }
  destruct (device_findings_entries res br ip device_info) as (Hnd & H1 & H2 & H3 & Hall).
  rewrite <- Hfound in Hnd, H1, H2, H3, Hall. rewrite changed_iff in H1, H2, H3.
  split_and!; done.
Qed.

Lemma C8_witness :
  let clk := sample_clock "t0" "t1" in
  let m := (process_device_data sample_backend clk (new_manager ∅) "u"
              {[ "ip_address" := PStr "1.2.3.4"; "screen_resolution" := PStr "1920x1080" ]}).1 in
  let r := process_device_data sample_backend clk m "u" {[ "ip_address" := PStr "5.6.7.8" ]} in
  d_anomalies_detected r.2 =
    [ device_entry "Screen resolution changed" "medium";
      device_entry "IP address changed - potential location change" "high" ] ∧
  stored_device r.1 "u" "ip_address" = Some (PStr "5.6.7.8") ∧
  stored_device r.1 "u" "screen_resolution" = Some (PStr "1920x1080").
Proof.
  intros clk m r.
  pose proof (C8_device_anomalies sample_backend clk m "u"
                {[ "ip_address" := PStr "5.6.7.8" ]}
                (PStr "1920x1080") PNone (PStr "1.2.3.4")) as H.
  cbv zeta in H.
  destruct H as (Ha & _ & _ & _ & _ & _ & _ & _ & Hk); try (vm_compute; reflexivity).
  split; [|split].
  - subst r. rewrite Ha. vm_compute. reflexivity.
  - subst r. rewrite (Hk "ip_address"). vm_compute. reflexivity.
  - subst r. rewrite (Hk "screen_resolution"). vm_compute. reflexivity.
Defined.

(** C8 as worded fails twice. A stored IP address that is the empty string
    is not null and differs from the snapshot's, and yields no entry. And a
    snapshot without an IP address is compared as [None] against the stored
    address, yields the entry of severity high, and leaves the stored
    address in place. *)
Lemma C8_counterexample :
  let clk := sample_clock "t0" "t1" in
  let blank := (process_device_data sample_backend clk (new_manager ∅) "u"
                  {[ "ip_address" := PStr "" ]}).1 in
  let r1 := process_device_data sample_backend clk blank "u"
              {[ "ip_address" := PStr "5.6.7.8" ]} in
  let known := (process_device_data sample_backend clk (new_manager ∅) "u"
                  {[ "ip_address" := PStr "1.2.3.4" ]}).1 in
  let r2 := process_device_data sample_backend clk known "u" ∅ in
  (stored_device blank "u" "ip_address" = Some (PStr "") ∧
   py_eq (PStr "") (PStr "5.6.7.8") = false ∧
   d_anomalies_detected r1.2 = []) ∧
  (stored_device known "u" "ip_address" = Some (PStr "1.2.3.4") ∧
   dict_get ∅ "ip_address" = PNone ∧
   d_anomalies_detected r2.2 =
     [ device_entry "IP address changed - potential location change" "high" ] ∧
   stored_device r2.1 "u" "ip_address" = Some (PStr "1.2.3.4")).
Proof.
  intros clk blank r1 known r2. split; split_and!; vm_compute; reflexivity.
Qed.

(** * Further properties of the manager *)

Section More.
Context (B : backend).

(** *** The whole state after a batch *)

Lemma keystroke_state clk m uid evs f :
  consistent m →
  _extract_keystroke_features clk (deref (heap m) <$> evs) = Ok f →
  let m1 := (ensure_profile B clk m uid).1 in
  let p1 := _update_keystroke_profile (ensure_profile B clk m uid).2 f in
  let m2 := batch_state "keystroke" clk m1 uid p1 (buffer_of m uid) evs in
  process_keystroke_data B clk m uid evs =
    if baseline_established p1 then
      (m2, scored (fresh_result clk uid (length evs)) "keystroke"
             "Unusual keystroke pattern detected"
             (_detect_keystroke_anomalies B m2 uid f) (anomaly_threshold p1))
    else if _check_baseline_sufficient p1 then
      (_train_user_model B (set_profile m2 uid (establish p1)) uid,
       fresh_result clk uid (length evs))
    else (m2, fresh_result clk uid (length evs)).
Proof.
  intros Hc Hx. unfold process_keystroke_data, batch_state.
  pose proof (ensure_profile_heap B m clk uid) as Hh.
  pose proof (ensure_profile_lookup B m clk uid) as Hl.
  pose proof (ensure_profile_consistent B m clk uid Hc) as Hc1.
  pose proof (ensure_profile_buffer_of B m clk uid uid Hc) as Hbo.
  destruct (ensure_profile B clk m uid) as [m1 p]. simpl in *.
  rewrite Hh, Hx.
  rewrite buffer_events_ok by (done || by eexists).
  by rewrite Hbo, Hh.
Qed.

Lemma mouse_state clk m uid evs :
  consistent m →
  let m1 := (ensure_profile B clk m uid).1 in
  let features := _extract_mouse_features (deref (heap m) <$> evs) in
  let p1 := _update_mouse_profile (ensure_profile B clk m uid).2 features in
  let m2 := batch_state "mouse" clk m1 uid p1 (buffer_of m uid) evs in
  process_mouse_data B clk m uid evs =
    if baseline_established p1 then
      (m2, scored (fresh_result clk uid (length evs)) "mouse"
             "Unusual mouse movement pattern detected"
             (_detect_mouse_anomalies B m2 uid features) (anomaly_threshold p1))
    else (m2, fresh_result clk uid (length evs)).
Proof.
  intros Hc. unfold process_mouse_data, batch_state.
  pose proof (ensure_profile_heap B m clk uid) as Hh.
  pose proof (ensure_profile_lookup B m clk uid) as Hl.
  pose proof (ensure_profile_consistent B m clk uid Hc) as Hc1.
  pose proof (ensure_profile_buffer_of B m clk uid uid Hc) as Hbo.
  destruct (ensure_profile B clk m uid) as [m1 p]. simpl in *.
  rewrite Hh.
  rewrite buffer_events_ok by (done || by eexists).
  by rewrite Hbo, Hh.
Qed.

Lemma device_state clk m uid info res br ip :
  let p := (ensure_profile B clk m uid).2 in
  device_patterns p !! "screen_resolution" = Some res →
  device_patterns p !! "browser_info" = Some br →
  device_patterns p !! "ip_address" = Some ip →
  process_device_data B clk m uid info =
    (set_profile (ensure_profile B clk m uid).1 uid
       (set_device_patterns p (info ∪ device_patterns p)),
     {| d_user_id := uid; device_match := true;
        d_anomalies_detected := device_findings res br ip info;
        d_timestamp := clk_result clk; d_error := None |}).
Proof.
  intros p Hres Hbr Hip. subst p. unfold process_device_data.
  destruct (ensure_profile B clk m uid) as [m1 p]. simpl in *.
  rewrite (check_field_found _ _ _ _ _ _ _ Hres).
  rewrite (check_field_found _ _ _ _ _ _ _ Hbr).
  rewrite (check_field_found _ _ _ _ _ _ _ Hip). simpl.
  unfold device_findings. by rewrite <- app_assoc.
Qed.

(** *** What a call leaves alone *)

Lemma same_at_refl u m : same_at u m m.
Proof. done. Qed.

Lemma same_at_trans u m1 m2 m3 : same_at u m1 m2 → same_at u m2 m3 → same_at u m1 m3.
Proof.
  intros (? & ? & ? & ?) (? & ? & ? & ?). unfold same_at. split_and!; by etrans.
Qed.

Lemma ensure_profile_same_at clk m uid u :
  u ≠ uid → same_at u m (ensure_profile B clk m uid).1.
Proof.
  intros Hne. unfold ensure_profile. destruct (user_profiles m !! uid); simpl; [done|].
  unfold same_at. simpl. by rewrite !lookup_insert_ne.
Qed.

Lemma buffer_events_same_at tag clk m uid p evs u :
  u ≠ uid → same_at u m (buffer_events tag clk m uid p evs).1.
Proof.
  intros Hne. unfold buffer_events, same_at.
  destruct (behavior_buffer m !! uid); simpl; by rewrite ?lookup_insert_ne.
Qed.

Lemma fit_scaler_same_at m uid rows m' u :
  u ≠ uid → fit_scaler B m uid rows = Ok m' → same_at u m m'.
Proof.
  intros Hne. unfold fit_scaler.
  destruct (scalers m !! uid) as [[sc|]|]; [|by intros [= <-]|done].
  destruct (scaler_truth B sc) as [[]|]; simpl; intros [= <-]; [|done].
  unfold same_at. simpl. by rewrite lookup_insert_ne.
Qed.

Lemma fit_model_same_at m uid rows m' u :
  u ≠ uid → fit_model B m uid rows = Ok m' → same_at u m m'.
Proof.
  intros Hne. unfold fit_model.
  destruct (anomaly_models m !! uid) as [[mo|]|]; [|by intros [= <-]|done].
  destruct (model_truth B mo) as [[]|]; simpl; intros [= <-]; [|done].
  unfold same_at. simpl. by rewrite lookup_insert_ne.
Qed.

Lemma train_same_at m uid u : u ≠ uid → same_at u m (_train_user_model B m uid).
Proof.
  intros Hne. unfold _train_user_model.
  destruct (negb _); [done|].
  destruct (user_profiles m !! uid) as [p|]; [|done].
  destruct (_ && _); [|done].
  destruct (fit_scaler B m uid (training_rows p)) as [m1|] eqn:H1; [|done].
  pose proof (fit_scaler_same_at _ _ _ _ u Hne H1).
  destruct (fit_model B m1 uid (training_rows p)) as [m2|] eqn:H2; [|done].
  pose proof (fit_model_same_at _ _ _ _ u Hne H2).
  by eapply same_at_trans.
Qed.

Lemma set_profile_same_at m uid p u : u ≠ uid → same_at u m (set_profile m uid p).
Proof. intros Hne. unfold same_at. simpl. by rewrite lookup_insert_ne. Qed.

Lemma keystroke_same_at clk m uid evs u :
  u ≠ uid → same_at u m (process_keystroke_data B clk m uid evs).1.
Proof.
  intros Hne. unfold process_keystroke_data.
  pose proof (ensure_profile_same_at clk m uid u Hne) as H1.
  destruct (ensure_profile B clk m uid) as [m1 p]. simpl in H1.
  destruct (_extract_keystroke_features _ _) as [f|e]; simpl; [|done].
  pose proof (buffer_events_same_at "keystroke" clk m1 uid
                (_update_keystroke_profile p f) evs u Hne) as H2.
  destruct (buffer_events _ _ _ _ _ _) as [m2 [e|]]; cbn [fst] in *.
  { by eapply same_at_trans. }
  assert (same_at u m m2) as H3 by (by eapply same_at_trans).
  destruct (baseline_established p); cbn [fst]; [done|].
  destruct (_check_baseline_sufficient _); cbn [fst]; [|done].
  eapply same_at_trans; [exact H3|].
  eapply same_at_trans; [by eapply set_profile_same_at|].
  by apply train_same_at.
Qed.

Lemma mouse_same_at clk m uid evs u :
  u ≠ uid → same_at u m (process_mouse_data B clk m uid evs).1.
Proof.
  intros Hne. unfold process_mouse_data.
  pose proof (ensure_profile_same_at clk m uid u Hne) as H1.
  destruct (ensure_profile B clk m uid) as [m1 p]. simpl in H1.
  set (p1 := _update_mouse_profile p _).
  pose proof (buffer_events_same_at "mouse" clk m1 uid p1 evs u Hne) as H2.
  destruct (buffer_events _ _ _ _ _ _) as [m2 [e|]]; cbn [fst] in *.
  { by eapply same_at_trans. }
  assert (same_at u m m2) as H3 by (by eapply same_at_trans).
  by destruct (baseline_established p1).
Qed.

Lemma device_same_at clk m uid info u :
  u ≠ uid → same_at u m (process_device_data B clk m uid info).1.
Proof.
  intros Hne. unfold process_device_data.
  pose proof (ensure_profile_same_at clk m uid u Hne) as H1.
  destruct (ensure_profile B clk m uid) as [m1 p]. simpl in H1.
  repeat (case_match; cbn [fst]; try done).
  eapply same_at_trans; [exact H1|]. by apply set_profile_same_at.
Qed.

End More.

Lemma step_same_at (B : backend) (m : manager) (c : clock * call) (u : string) :
  u ≠ call_user c.2 → same_at u m (step B m c).
Proof.
  destruct c as [clk [uid evs|uid evs|uid info|uid]]; unfold step; cbn [fst snd call_user];
    intros Hne; [by apply keystroke_same_at|by apply mouse_same_at|
                 by apply device_same_at|done].
Qed.

(** X1: a call for one user leaves the profile, model, scaler and buffer
    entries of every other user as they were, in any state of the manager. *)
Theorem X1_calls_keep_other_users (B : backend) (m : manager) (c : clock * call)
    (u : string) :
  u ≠ call_user c.2 → same_at u m (step B m c).
Proof.
  destruct c as [clk [uid evs|uid evs|uid info|uid]]; unfold step; cbn [fst snd call_user];
    intros Hne.
  - by apply keystroke_same_at.
  - by apply mouse_same_at.
  - by apply device_same_at.
  - done.
Qed.

Lemma X1_witness :
  same_at "v" (run sample_backend (new_manager sample_heap) [(sample_clock "t0" "t1", Mouse "v" [0])])
    (step sample_backend
       (run sample_backend (new_manager sample_heap) [(sample_clock "t0" "t1", Mouse "v" [0])])
       (sample_clock "t2" "t3", Keystroke "u" [22; 23])).
Proof.
  apply (X1_calls_keep_other_users sample_backend _
           (sample_clock "t2" "t3", Keystroke "u" [22; 23]) "v").
  discriminate.
Defined.

(** *** What every reachable state satisfies *)

Lemma count_events_fixed (events : list dict) f :
  movement_speed (count_events events f) = movement_speed f ∧
  f_movement_variance (count_events events f) = f_movement_variance f.
Proof.
  revert f. induction events as [|e events IH]; intros f; simpl; [done|].
  destruct (IH (if get_is e "type" "click"
                then {| movement_speed := movement_speed f; click_count := S (click_count f);
                        scroll_count := scroll_count f;
                        f_movement_variance := f_movement_variance f |}
                else if get_is e "type" "scroll"
                then {| movement_speed := movement_speed f; click_count := click_count f;
                        scroll_count := S (scroll_count f);
                        f_movement_variance := f_movement_variance f |}
                else f)) as [-> ->].
  by repeat case_match.
Qed.

Lemma extract_mouse_speed (events : list dict) :
  from_option movement_speed 0%Q (_extract_mouse_features events) = 0%Q.
Proof.
  unfold _extract_mouse_features. destruct events as [|e events]; [done|].
  cbn [from_option]. by rewrite (proj1 (count_events_fixed _ _)).
Qed.

Lemma new_profile_ok uid now : profile_ok uid (new_profile uid now).
Proof.
  unfold profile_ok. simpl.
  split_and!; try done; try lia; eexists; vm_compute; reflexivity.
Qed.

Lemma update_keystroke_ok uid p f :
  profile_ok uid p → profile_ok uid (_update_keystroke_profile p f).
Proof. done. Qed.

Lemma update_mouse_ok uid p (events : list dict) :
  profile_ok uid p →
  profile_ok uid (_update_mouse_profile p (_extract_mouse_features events)).
Proof.
  intros (Hid & Hth & Her & Hsp & Hvar & Hlen & Hpos & Hd1 & Hd2 & Hd3).
  unfold profile_ok, _update_mouse_profile. cbn [user_id anomaly_threshold p_keystroke
    p_mouse device_patterns avg_movement_speed movement_variance click_patterns].
  rewrite extract_mouse_speed. cbn [Qeq_bool]. simpl Qeq_bool.
  split_and!; try done.
  - destruct (from_option click_count 0%nat _); [done|].
    case_decide; [rewrite last_n_length; lia|lia].
  - destruct (from_option click_count 0%nat _) as [|n]; [done|].
    assert (Forall (fun c => (1 ≤ c)%nat) (click_patterns (p_mouse p) ++ [S n])) as Hall.
    { apply Forall_app. split; [done|]. apply Forall_singleton. lia. }
    case_decide; [|done]. unfold last_n. by apply Forall_drop.
Qed.

Lemma establish_ok uid p : profile_ok uid p → profile_ok uid (establish p).
Proof. done. Qed.

Lemma outcome_ok uid p : profile_ok uid p → profile_ok uid (keystroke_outcome p).
Proof. intros H. unfold keystroke_outcome. by repeat case_match. Qed.

Lemma device_update_ok uid p (info : dict) :
  profile_ok uid p → profile_ok uid (set_device_patterns p (info ∪ device_patterns p)).
Proof.
  intros (Hid & Hth & Her & Hsp & Hvar & Hlen & Hpos & Hd1 & Hd2 & Hd3).
  unfold profile_ok. simpl. rewrite !update_lookup.
  split_and!; try done; by destruct (info !! _).
Qed.

Lemma estimators_ok_true B flag model scaler :
  estimators_ok B flag model scaler → estimators_ok B true model scaler.
Proof.
  unfold estimators_ok. destruct (SKLEARN_AVAILABLE B); [|done].
  intros (e1 & e2 & -> & -> & _). by exists e1, e2.
Qed.

Lemma fit_scaler_entries B m uid rows m' :
  fit_scaler B m uid rows = Ok m' →
  anomaly_models m' = anomaly_models m ∧
  (scalers m' = scalers m ∨
   ∃ sc, scalers m !! uid = Some (Some sc) ∧
         scalers m' = <[uid := Some (Fitted rows)]> (scalers m)).
Proof.
  unfold fit_scaler.
  destruct (scalers m !! uid) as [[sc|]|] eqn:E; [|intros [= <-]; by split; [|left]|done].
  destruct (scaler_truth B sc) as [[]|]; simpl; intros [= <-]; simpl.
  - split; [done|]. right. by exists sc.
  - split; [done|by left].
Qed.

Lemma fit_model_entries B m uid rows m' :
  fit_model B m uid rows = Ok m' →
  scalers m' = scalers m ∧
  (anomaly_models m' = anomaly_models m ∨
   ∃ mo, anomaly_models m !! uid = Some (Some mo) ∧
         anomaly_models m' = <[uid := Some (Fitted rows)]> (anomaly_models m)).
Proof.
  unfold fit_model.
  destruct (anomaly_models m !! uid) as [[mo|]|] eqn:E; [|intros [= <-]; by split; [|left]|done].
  destruct (model_truth B mo) as [[]|]; simpl; intros [= <-]; simpl.
  - split; [done|]. right. by exists mo.
  - split; [done|by left].
Qed.

(** Training keeps the entries entries: an object stays an object, [None]
    stays [None]. *)
Lemma train_estimators_ok B m uid flag :
  estimators_ok B flag (anomaly_models m !! uid) (scalers m !! uid) →
  estimators_ok B true (anomaly_models (_train_user_model B m uid) !! uid)
    (scalers (_train_user_model B m uid) !! uid).
Proof.
  intros Hok. apply estimators_ok_true in Hok. unfold _train_user_model.
  destruct (negb _); [done|].
  destruct (user_profiles m !! uid) as [p|]; [|done].
  destruct (_ && _); [|done].
  assert (∀ m1, fit_scaler B m uid (training_rows p) = Ok m1 →
            estimators_ok B true (anomaly_models m1 !! uid) (scalers m1 !! uid)) as Hs.
  { intros m1 (-> & [-> |(sc & Hsc & ->)])%fit_scaler_entries; [done|].
    rewrite lookup_insert_eq. unfold estimators_ok in *.
    destruct (SKLEARN_AVAILABLE B).
    - destruct Hok as (e1 & e2 & -> & _ & _). by exists e1, (Fitted (training_rows p)).
    - destruct Hok as [_ Hn]. congruence. }
  destruct (fit_scaler B m uid (training_rows p)) as [m1|] eqn:H1; [|done].
  specialize (Hs m1 eq_refl).
  destruct (fit_model B m1 uid (training_rows p)) as [m2|] eqn:H2; [|done].
  apply fit_model_entries in H2 as (-> & [-> |(mo & Hmo & ->)]); [done|].
  rewrite lookup_insert_eq. unfold estimators_ok in *.
  destruct (SKLEARN_AVAILABLE B).
  - destruct Hs as (e1 & e2 & _ & -> & _). by exists (Fitted (training_rows p)), e2.
  - destruct Hs as [Hn _]. congruence.
Qed.

Lemma new_manager_sound B h : sound B (new_manager h).
Proof.
  split; [apply new_manager_consistent|]. intros uid p. simpl. by rewrite lookup_empty.
Qed.

Lemma ensure_profile_sound B m clk uid :
  sound B m → sound B (ensure_profile B clk m uid).1.
Proof.
  intros [Hc Hs]. split; [by apply ensure_profile_consistent|].
  unfold ensure_profile. destruct (user_profiles m !! uid) eqn:E; simpl; [done|].
  intros u p. destruct (decide (uid = u)) as [->|Hne].
  - rewrite !lookup_insert_eq. intros [= <-]. split; [apply new_profile_ok|].
    unfold estimators_ok. simpl. destruct (SKLEARN_AVAILABLE B); [|done].
    by exists Unfitted, Unfitted.
  - rewrite !lookup_insert_ne by done. apply Hs.
Qed.

(** A state that differs from a sound one at one user, whose new profile and
    entries are in order, is sound. *)
Lemma sound_update B m m' uid p :
  sound B m → consistent m' →
  user_profiles m' !! uid = Some p →
  profile_ok uid p →
  estimators_ok B (baseline_established p) (anomaly_models m' !! uid) (scalers m' !! uid) →
  (∀ u, u ≠ uid → user_profiles m' !! u = user_profiles m !! u ∧
                   anomaly_models m' !! u = anomaly_models m !! u ∧
                   scalers m' !! u = scalers m !! u) →
  sound B m'.
Proof.
  intros [_ Hs] Hc' Hp Hok Hest Hother. split; [done|].
  intros u q Hq. destruct (decide (u = uid)) as [->|Hne].
  - rewrite Hp in Hq. by injection Hq as <-.
  - destruct (Hother u Hne) as (Hp' & -> & ->). rewrite Hp' in Hq. by apply Hs.
Qed.

Lemma flag_kept_estimators B (flag flag' : bool) model scaler :
  flag' = flag → estimators_ok B flag model scaler → estimators_ok B flag' model scaler.
Proof. by intros ->. Qed.

Lemma keystroke_sound B clk m uid evs :
  sound B m → sound B (process_keystroke_data B clk m uid evs).1.
Proof.
  intros Hs. pose proof (ensure_profile_sound B m clk uid Hs) as Hs1.
  pose proof Hs as [Hc _].
  destruct (_extract_keystroke_features clk (deref (heap m) <$> evs)) as [f|e] eqn:Hx.
  2:{ by rewrite (keystroke_raise B _ _ _ _ _ Hx). }
  pose proof (keystroke_consistent B clk m uid evs Hc) as Hc'.
  pose proof (ensure_profile_lookup B m clk uid) as Hl.
  destruct (proj2 Hs1 _ _ Hl) as [Hok Hest].
  rewrite (keystroke_state B clk m uid evs f Hc Hx) in *.
  set (m1 := (ensure_profile B clk m uid).1) in *.
  set (p := (ensure_profile B clk m uid).2) in *.
  set (p1 := _update_keystroke_profile p f) in *.
  set (m2 := batch_state "keystroke" clk m1 uid p1 (buffer_of m uid) evs) in *.
  assert (profile_ok uid p1) as Hok1 by (by apply update_keystroke_ok).
  assert (baseline_established p1 = baseline_established p) as Hb1 by done.
  assert (user_profiles m2 !! uid = Some p1) as Hl2 by apply lookup_insert_eq.
  assert (∀ u, u ≠ uid → user_profiles m2 !! u = user_profiles m1 !! u ∧
                          anomaly_models m2 !! u = anomaly_models m1 !! u ∧
                          scalers m2 !! u = scalers m1 !! u) as Hother.
  { intros u Hne. simpl. by rewrite lookup_insert_ne. }
  assert (estimators_ok B (baseline_established p1)
            (anomaly_models m2 !! uid) (scalers m2 !! uid)) as Hest2.
  { by rewrite Hb1. }
  destruct (baseline_established p1) eqn:Eb; cbn [fst] in *.
  { by apply (sound_update B m1 m2 uid p1). }
  destruct (_check_baseline_sufficient p1) eqn:Es; cbn [fst] in *.
  2:{ by apply (sound_update B m1 m2 uid p1). }
  apply (sound_update B m1 _ uid (establish p1)); [exact Hs1|exact Hc'| | | |].
  - rewrite train_profiles. simpl. by rewrite lookup_insert_eq.
  - by apply establish_ok.
  - simpl. by apply (train_estimators_ok B (set_profile m2 uid (establish p1)) uid false).
  - intros u Hne.
    destruct (train_same_at B (set_profile m2 uid (establish p1)) uid u Hne)
      as (-> & -> & -> & _).
    simpl. by rewrite !lookup_insert_ne.
Qed.

Lemma mouse_sound B clk m uid evs :
  sound B m → sound B (process_mouse_data B clk m uid evs).1.
Proof.
  intros Hs. pose proof (ensure_profile_sound B m clk uid Hs) as Hs1.
  pose proof Hs as [Hc _].
  pose proof (mouse_consistent B clk m uid evs Hc) as Hc'.
  pose proof (ensure_profile_lookup B m clk uid) as Hl.
  destruct (proj2 Hs1 _ _ Hl) as [Hok Hest].
  rewrite (mouse_state B clk m uid evs Hc) in *.
  set (m1 := (ensure_profile B clk m uid).1) in *.
  set (p := (ensure_profile B clk m uid).2) in *.
  set (p1 := _update_mouse_profile p _) in *.
  set (m2 := batch_state "mouse" clk m1 uid p1 (buffer_of m uid) evs) in *.
  assert (profile_ok uid p1) as Hok1 by (by apply update_mouse_ok).
  assert (baseline_established p1 = baseline_established p) as Hb1 by done.
  assert (sound B m2) as Hm2.
  { apply (sound_update B m1 m2 uid p1); [exact Hs1| |apply lookup_insert_eq|exact Hok1| |].
    - by destruct (baseline_established p1).
    - exact Hest.
    - intros u Hne. simpl. by rewrite lookup_insert_ne. }
  by destruct (baseline_established p1).
Qed.

Lemma device_sound B clk m uid info :
  sound B m → sound B (process_device_data B clk m uid info).1.
Proof.
  intros Hs. pose proof (ensure_profile_sound B m clk uid Hs) as Hs1.
  pose proof Hs as [Hc _].
  pose proof (device_consistent B clk m uid info Hc) as Hc'.
  pose proof (ensure_profile_lookup B m clk uid) as Hl.
  pose proof Hs1 as [Hc1 Hp1]. destruct (Hp1 _ _ Hl) as [Hok Hest].
  pose proof Hok as (_ & _ & _ & _ & _ & _ & _ & [res Hres] & [br Hbr] & [ip Hip]).
  rewrite (device_state B clk m uid info res br ip Hres Hbr Hip) in *. cbn [fst] in *.
  eapply sound_update; [exact Hs1|exact Hc'| | | |].
  - simpl. apply lookup_insert_eq.
  - by apply device_update_ok.
  - exact Hest.
  - intros u Hne. simpl. by rewrite lookup_insert_ne.
Qed.

Lemma step_sound B m c : sound B m → sound B (step B m c).
Proof.
  intros Hs. destruct c as [clk [uid evs|uid evs|uid info|uid]]; unfold step; cbn [fst snd].
  - by apply keystroke_sound.
  - by apply mouse_sound.
  - by apply device_sound.
  - done.
Qed.

Lemma run_sound B calls m : sound B m → sound B (run B m calls).
Proof.
  revert m. induction calls as [|c calls IH]; intros m Hs; [done|].
  simpl. apply IH. by apply step_sound.
Qed.

Lemma reachable_sound B h calls : sound B (run B (new_manager h) calls).
Proof. apply run_sound, new_manager_sound. Qed.

(** X2: in every state the manager reaches, [get_user_profile] returns for
    a user either nothing, and then the user has no buffer, or a profile
    filed under that very id, with the default threshold 0.15, together with
    a buffer, a model entry and a scaler entry; the two entries hold
    estimator objects when scikit-learn is available and [None] when not. *)
Theorem X2_registries_keyed_alike (B : backend) (h : gmap nat dict)
    (calls : list (clock * call)) (uid : string) :
  let m := run B (new_manager h) calls in
  match get_user_profile m uid with
  | None => behavior_buffer m !! uid = None
  | Some p =>
      user_id p = uid ∧ anomaly_threshold p = 15 # 100 ∧
      is_Some (behavior_buffer m !! uid) ∧
      if SKLEARN_AVAILABLE B
      then is_Some (get_estimator (anomaly_models m) uid) ∧
           is_Some (get_estimator (scalers m) uid)
      else anomaly_models m !! uid = Some None ∧ scalers m !! uid = Some None
  end.
Proof.
  intros m. destruct (reachable_sound B h calls) as [Hc Hs]. fold m in Hc, Hs.
  unfold get_user_profile. destruct (user_profiles m !! uid) as [p|] eqn:Hp.
  - destruct (Hs uid p Hp) as [(Hid & Hth & _) Hest]. split_and!; [done|done| |].
    + apply Hc. by rewrite Hp.
    + unfold estimators_ok, get_estimator in *. destruct (SKLEARN_AVAILABLE B); [|done].
      destruct Hest as (e1 & e2 & -> & -> & _). split; by eexists.
  - destruct (behavior_buffer m !! uid) as [buf|] eqn:Hb; [|done].
    assert (is_Some (user_profiles m !! uid)) as [? ?] by (apply Hc; by rewrite Hb).
    congruence.
Qed.

(** X3: in every reachable state the average movement speed of a profile is
    0, so [_train_user_model] never builds the mouse row: the training data
    of a user is the single keystroke row (average typing speed, number of
    intervals, 0, 0) when the average typing speed is positive, and empty
    otherwise. *)
Theorem X3_training_rows_are_keystroke_only (B : backend) (h : gmap nat dict)
    (calls : list (clock * call)) (uid : string) :
  let m := run B (new_manager h) calls in
  match get_user_profile m uid with
  | None => True
  | Some p =>
      avg_movement_speed (p_mouse p) = 0%Q ∧
      training_rows p =
        if Qgtb (avg_typing_speed (p_keystroke p)) 0
        then [[ avg_typing_speed (p_keystroke p);
                inject_Z (Z.of_nat (length (keystroke_intervals (p_keystroke p))));
                0%Q; 0%Q ]]
        else []
  end.
Proof.
  intros m. destruct (reachable_sound B h calls) as [_ Hs]. fold m in Hs.
  unfold get_user_profile. destruct (user_profiles m !! uid) as [p|] eqn:Hp; [|done].
  destruct (Hs uid p Hp) as [(_ & _ & Her & Hsp & _) _]. split; [done|].
  unfold training_rows. rewrite Hsp, Her. simpl.
  destruct (Qgtb _ _); by rewrite ?app_nil_r.
Qed.

(** X4: in every reachable state the click history of a profile holds at
    most 100 entries, each of them a positive count: a batch without a
    click appends nothing. *)
Theorem X4_click_history_bounded (B : backend) (h : gmap nat dict)
    (calls : list (clock * call)) (uid : string) :
  let m := run B (new_manager h) calls in
  match get_user_profile m uid with
  | None => True
  | Some p =>
      (length (click_patterns (p_mouse p)) ≤ 100)%nat ∧
      Forall (fun c => (1 ≤ c)%nat) (click_patterns (p_mouse p))
  end.
Proof.
  intros m. destruct (reachable_sound B h calls) as [_ Hs]. fold m in Hs.
  unfold get_user_profile. destruct (user_profiles m !! uid) as [p|] eqn:Hp; [|done].
  by destruct (Hs uid p Hp) as [(_ & _ & _ & _ & _ & Hlen & Hpos & _) _].
Qed.

(** X5: in every reachable state, as long as the baseline of a user is not
    established, the model and the scaler of the user are unfitted (or
    [None] without scikit-learn): nothing is fitted before the transition. *)
Theorem X5_unfitted_before_baseline (B : backend) (h : gmap nat dict)
    (calls : list (clock * call)) (uid : string) :
  let m := run B (new_manager h) calls in
  match get_user_profile m uid with
  | None => True
  | Some p =>
      if baseline_established p then True
      else get_estimator (anomaly_models m) uid =
             (if SKLEARN_AVAILABLE B then Some Unfitted else None) ∧
           get_estimator (scalers m) uid =
             (if SKLEARN_AVAILABLE B then Some Unfitted else None)
  end.
Proof.
  intros m. destruct (reachable_sound B h calls) as [_ Hs]. fold m in Hs.
  unfold get_user_profile. destruct (user_profiles m !! uid) as [p|] eqn:Hp; [|done].
  destruct (Hs uid p Hp) as [_ Hest].
  destruct (baseline_established p); [done|].
  unfold estimators_ok, get_estimator in *. destruct (SKLEARN_AVAILABLE B).
  - destruct Hest as (e1 & e2 & -> & -> & Hun). by destruct (Hun eq_refl) as [-> ->].
  - by destruct Hest as [-> ->].
Qed.

Section Retraining.
Context (B : backend).

Lemma ensure_profile_established clk m uid :
  established m uid = true →
  ∃ p, ensure_profile B clk m uid = (m, p) ∧ baseline_established p = true.
Proof.
  unfold established, ensure_profile.
  destruct (user_profiles m !! uid) as [p|]; [|done]. by exists p.
Qed.

Lemma step_estimators_kept m c uid :
  established m uid = true →
  anomaly_models (step B m c) !! uid = anomaly_models m !! uid ∧
  scalers (step B m c) !! uid = scalers m !! uid.
Proof.
  intros He. destruct (decide (uid = call_user c.2)) as [Heq|Hne].
  2:{ by destruct (step_same_at B m c uid Hne) as (_ & ? & ? & _). }
  destruct c as [clk [u evs|u evs|u info|u]]; unfold step; cbn [fst snd call_user] in *;
    subst u; [| | |done];
    destruct (ensure_profile_established clk m uid He) as (p & Hen & Hb).
  - unfold process_keystroke_data. rewrite Hen.
    destruct (_extract_keystroke_features _ _) as [f|e]; [|done].
    unfold buffer_events. cbn [baseline_established _update_keystroke_profile].
    destruct (behavior_buffer m !! uid); [|done]. by rewrite Hb.
  - unfold process_mouse_data. rewrite Hen. unfold buffer_events.
    cbn [baseline_established _update_mouse_profile].
    destruct (behavior_buffer m !! uid); [|done]. by rewrite Hb.
  - unfold process_device_data. rewrite Hen. by repeat case_match.
Qed.

End Retraining.

(** X6: once the baseline of a user is established, no sequence of calls
    changes the model entry or the scaler entry of that user: the estimators
    are fitted at the transition or never, and are not refitted. *)
Theorem X6_no_retraining (B : backend) (m : manager) (calls : list (clock * call))
    (uid : string) :
  established m uid = true →
  anomaly_models (run B m calls) !! uid = anomaly_models m !! uid ∧
  scalers (run B m calls) !! uid = scalers m !! uid.
Proof.
  revert m. induction calls as [|c calls IH]; intros m He; [done|].
  simpl. destruct (step_estimators_kept B m c uid He) as [<- <-].
  apply IH. by apply step_flag_kept.
Qed.

Lemma X6_witness :
  let m := run sample_backend (new_manager sample_heap) trained_trace in
  let more := [(sample_clock "t2" "t3", Keystroke "u" [22; 23]);
               (sample_clock "t4" "t5", Mouse "u" [0; 1]);
               (sample_clock "t6" "t7", Keystroke "v" [20])] in
  anomaly_models (run sample_backend m more) !! "u" = anomaly_models m !! "u" ∧
  scalers (run sample_backend m more) !! "u" = scalers m !! "u".
Proof.
  intros m more. apply (X6_no_retraining sample_backend m more "u").
  vm_compute. reflexivity.
Defined.

(** *** Training at the transition *)





(** *** Results of a batch *)

(** X7: a batch processed while the baseline of the user is not established
    is never scored, whether or not it establishes the baseline: the result
    of [process_keystroke_data] and of [process_mouse_data] carries the score
    0.0 and no anomaly. *)
Theorem X7_no_score_before_baseline (B : backend) (clk : clock) (m : manager)
    (uid : string) (evs : list loc) :
  established m uid = false →
  anomaly_score (process_keystroke_data B clk m uid evs).2 = 0%Q ∧
  anomalies_detected (process_keystroke_data B clk m uid evs).2 = [] ∧
  anomaly_score (process_mouse_data B clk m uid evs).2 = 0%Q ∧
  anomalies_detected (process_mouse_data B clk m uid evs).2 = [].
Proof.
  intros He. unfold process_keystroke_data, process_mouse_data.
  pose proof (ensure_profile_flag B m clk uid) as Hf. rewrite He in Hf.
  destruct (ensure_profile B clk m uid) as [m1 p]. simpl in Hf.
  assert (anomaly_score (fresh_result clk uid (length evs)) = 0%Q ∧
          anomalies_detected (fresh_result clk uid (length evs)) = []) as Hfresh by done.
  split_and!.
  1,2: destruct (_extract_keystroke_features _ _) as [f|e]; [|done];
       destruct (buffer_events _ _ _ _ _ _) as [m2 [e|]]; [done|];
       cbn [baseline_established _update_keystroke_profile]; rewrite Hf;
       by destruct (_check_baseline_sufficient _).
  all: destruct (buffer_events _ _ _ _ _ _) as [m2 [e|]]; [done|];
       cbn [baseline_established _update_mouse_profile]; by rewrite Hf.
Qed.

Lemma X7_witness :
  let m := run sample_backend (new_manager sample_heap) (click_batches 20) in
  let clk := sample_clock "t0" "t1" in
  anomaly_score (process_keystroke_data sample_backend clk m "u" [22; 23]).2 = 0%Q ∧
  anomalies_detected (process_keystroke_data sample_backend clk m "u" [22; 23]).2 = [] ∧
  anomaly_score (process_mouse_data sample_backend clk m "u" [22; 23]).2 = 0%Q ∧
  anomalies_detected (process_mouse_data sample_backend clk m "u" [22; 23]).2 = [].
Proof.
  intros m clk. apply (X7_no_score_before_baseline sample_backend clk m "u" [22; 23]).
  vm_compute. reflexivity.
Defined.

Lemma scored_shape (r : process_result) tag description score threshold :
  r_error r = None →
  let r' := scored r tag description score threshold in
  r_user_id r' = r_user_id r ∧ events_processed r' = events_processed r ∧
  anomaly_score r' = score ∧ r_error r' = None ∧
  anomalies_detected r' =
    if Qgtb score threshold
    then [ {| fd_type := tag; fd_score := score; fd_description := description |} ]
    else [].
Proof. done. Qed.

(** X8: in every reachable state, the result of [process_keystroke_data]
    names the user, counts the events of the batch, and carries a score in
    [0,1]; it lists one anomaly, of type keystroke and with that score, when
    the score exceeds 0.15, and none otherwise. The same holds of
    [process_mouse_data], with type mouse, and its result never carries an
    error. *)
Theorem X8_result_records (B : backend) (h : gmap nat dict) (calls : list (clock * call))
    (clk : clock) (uid : string) (evs : list loc) :
  let m := run B (new_manager h) calls in
  let rk := (process_keystroke_data B clk m uid evs).2 in
  let rm := (process_mouse_data B clk m uid evs).2 in
  (r_user_id rk = uid ∧ events_processed rk = length evs ∧
   (0 <= anomaly_score rk <= 1)%Q ∧
   anomalies_detected rk =
     if Qgtb (anomaly_score rk) (15 # 100)
     then [ {| fd_type := "keystroke"; fd_score := anomaly_score rk;
               fd_description := "Unusual keystroke pattern detected" |} ]
     else []) ∧
  (r_user_id rm = uid ∧ events_processed rm = length evs ∧
   (0 <= anomaly_score rm <= 1)%Q ∧ r_error rm = None ∧
   anomalies_detected rm =
     if Qgtb (anomaly_score rm) (15 # 100)
     then [ {| fd_type := "mouse"; fd_score := anomaly_score rm;
               fd_description := "Unusual mouse movement pattern detected" |} ]
     else []).
Proof.
  intros m rk rm. destruct (reachable_sound B h calls) as [Hc Hs]. fold m in Hc, Hs.
  pose proof (ensure_profile_sound B m clk uid (conj Hc Hs)) as [_ Hs1].
  destruct (Hs1 _ _ (ensure_profile_lookup B m clk uid)) as [(_ & Hth & _) _].
  split.
  - subst rk.
    destruct (_extract_keystroke_features clk (deref (heap m) <$> evs)) as [f|e] eqn:Hx.
    2:{ rewrite (keystroke_raise B _ _ _ _ _ Hx). simpl. split_and!; try done; lra. }
    rewrite (keystroke_state B clk m uid evs f Hc Hx).
    cbn [baseline_established anomaly_threshold _update_keystroke_profile]. rewrite Hth.
    destruct (baseline_established _).
    + simpl. split_and!; try done; apply detect_keystroke_unit.
    + destruct (_check_baseline_sufficient _); simpl; split_and!; try done; lra.
  - subst rm. rewrite (mouse_state B clk m uid evs Hc).
    cbn [baseline_established anomaly_threshold _update_mouse_profile]. rewrite Hth.
    destruct (baseline_established _).
    + simpl. split_and!; try done; apply detect_mouse_unit.
    + simpl. split_and!; try done; lra.
Qed.

(** X9: without scikit-learn, in every reachable state, a batch is answered
    with the score 0.0 or the sentinel 0.1 and with no anomaly, and the
    security score of a known user is 100 with risk low and no anomaly
    counted: the detectors never raise an alarm. *)
Theorem X9_no_alarm_without_backend (B : backend) (h : gmap nat dict)
    (calls : list (clock * call)) (clk : clock) (uid : string) (evs : list loc) :
  SKLEARN_AVAILABLE B = false →
  let m := run B (new_manager h) calls in
  let rk := (process_keystroke_data B clk m uid evs).2 in
  let rm := (process_mouse_data B clk m uid evs).2 in
  ((anomaly_score rk = 0%Q ∨ anomaly_score rk = 1 # 10) ∧ anomalies_detected rk = []) ∧
  ((anomaly_score rm = 0%Q ∨ anomaly_score rm = 1 # 10) ∧ anomalies_detected rm = []) ∧
  match get_user_profile m uid with
  | None => True
  | Some p =>
      get_security_score B clk m uid =
        Ok {| sa_user_id := uid; security_score := 100; risk_level := "low";
              anomalies_count := 0; sa_baseline_established := baseline_established p;
              sa_timestamp := Some (clk_result clk) |}
  end.
Proof.
  intros Hno m rk rm. destruct (reachable_sound B h calls) as [Hc Hs]. fold m in Hc, Hs.
  pose proof (ensure_profile_sound B m clk uid (conj Hc Hs)) as [_ Hs1].
  destruct (Hs1 _ _ (ensure_profile_lookup B m clk uid)) as [(_ & Hth & _) _].
  assert (∀ m' u f, _detect_keystroke_anomalies B m' u f = 1 # 10) as Hk.
  { intros. unfold _detect_keystroke_anomalies. by rewrite Hno. }
  assert (∀ m' u f, _detect_mouse_anomalies B m' u f = 1 # 10) as Hm.
  { intros. unfold _detect_mouse_anomalies. by rewrite Hno. }
  split; [|split].
  - subst rk.
    destruct (_extract_keystroke_features clk (deref (heap m) <$> evs)) as [f|e] eqn:Hx.
    2:{ rewrite (keystroke_raise B _ _ _ _ _ Hx). simpl. split; [by left|done]. }
    rewrite (keystroke_state B clk m uid evs f Hc Hx).
    cbn [baseline_established anomaly_threshold _update_keystroke_profile]. rewrite Hth.
    destruct (baseline_established _).
    + simpl. rewrite Hk. split; [by right|done].
    + destruct (_check_baseline_sufficient _); simpl; (split; [by left|done]).
  - subst rm. rewrite (mouse_state B clk m uid evs Hc).
    cbn [baseline_established anomaly_threshold _update_mouse_profile]. rewrite Hth.
    destruct (baseline_established _).
    + simpl. rewrite Hm. split; [by right|done].
    + simpl. split; [by left|done].
  - unfold get_user_profile. destruct (user_profiles m !! uid) as [p|] eqn:Hp; [|done].
    rewrite (security_score_known B clk m uid p Hp).
    assert (recent_count B clk m uid = 0%nat) as ->; [|done].
    unfold recent_count, zero_findings. rewrite Hk, Hm.
    destruct (buffer_of m uid); [done|]. by repeat case_match.
Qed.

Lemma X9_witness :
  let m := run no_backend (new_manager sample_heap) untrained_trace in
  let clk := sample_clock "t2" "t3" in
  anomalies_detected (process_keystroke_data no_backend clk m "u" [22; 23]).2 = [] ∧
  anomalies_detected (process_mouse_data no_backend clk m "u" [22; 23]).2 = [].
Proof.
  intros m clk.
  pose proof (X9_no_alarm_without_backend no_backend sample_heap untrained_trace
                clk "u" [22; 23] eq_refl) as H.
  cbv zeta in H. destruct H as ((_ & Hk) & (_ & Hm) & _).
  split; [exact Hk|exact Hm].
Defined.

(** X10: whatever the state, [get_security_score] counts at most two
    anomalies, one per modality, so for a user with a profile the score is
    100, 90 or 80 and the risk level is low or medium: the branch that
    assigns the level high is never taken. The score is 100 exactly when the
    level is low. *)
Theorem X10_security_score_range (B : backend) (clk : clock) (m : manager) (uid : string) :
  ∃ r, get_security_score B clk m uid = Ok r ∧
       match get_user_profile m uid with
       | None => r = unknown_assessment uid
       | Some p =>
           (anomalies_count r ≤ 2)%nat ∧
           (security_score r = 100 ∨ security_score r = 90 ∨ security_score r = 80)%Z ∧
           (risk_level r = "low" ∨ risk_level r = "medium") ∧
           (security_score r = 100%Z ↔ risk_level r = "low")
       end.
Proof.
  unfold get_user_profile. destruct (user_profiles m !! uid) as [p|] eqn:Hp.
  - eexists. split; [by apply security_score_known|]. simpl.
    pose proof (recent_count_le B clk m uid) as Hle.
    destruct (recent_count B clk m uid) as [|[|[|n]]]; [..|lia];
      (split_and!; [lia|by auto|by auto|done]).
  - eexists. split; [by apply security_score_unknown|done].
Qed.

(** *** Feature extraction *)

Lemma keydown_times_length clk i (events : list dict) :
  length (keydown_times clk i events) = keydown_count events.
Proof.
  unfold keydown_count. revert i.
  induction events as [|e events IH]; intros i; [done|].
  cbn [keydown_times]. rewrite filter_cons.
  destruct (get_is e "type" "keydown") eqn:E.
  - rewrite decide_True by done. cbn [length]. by rewrite IH.
  - rewrite decide_False by done. apply IH.
Qed.

Lemma intervals_from_length prev times ds :
  intervals_from prev times = Ok ds → length ds = length times.
Proof.
  revert prev ds. induction times as [|t times IH]; intros prev ds; simpl.
  - by intros [= <-].
  - destruct (py_sub t prev) as [d|]; simpl; [|done].
    destruct (intervals_from t times) as [ds'|] eqn:E; simpl; [|done].
    intros [= <-]. simpl. by rewrite (IH _ _ E).
Qed.

(** X11: [_extract_keystroke_features] returns the empty dict exactly for the
    empty batch. When it returns features, they hold one interval less than
    the batch has key presses (none for fewer than two), in which case the
    typing speed is 0 too, and the two placeholders are 0. *)
Theorem X11_one_interval_per_pair (clk : clock) (events : list dict) :
  (_extract_keystroke_features clk events = Ok None ↔ events = []) ∧
  ∀ f, _extract_keystroke_features clk events = Ok (Some f) →
       length (f_keystroke_intervals f) = (keydown_count events - 1)%nat ∧
       ((keydown_count events ≤ 1)%nat → typing_speed f = 0%Q) ∧
       error_count f = 0%Q ∧ special_key_usage f = 0%Q.
Proof.
  pose proof (keydown_times_length clk 0 events) as Hlen.
  unfold _extract_keystroke_features.
  destruct events as [|e events]; [split; [done|intros f [=]]|].
  destruct (keydown_times clk 0 (e :: events)) as [|t0 [|t1 times]] eqn:Ht;
    simpl in Hlen.
  - split; [split; intros [=]|]. intros f [= <-]. simpl. split_and!; try done. lia.
  - split; [split; intros [=]|]. intros f [= <-]. simpl. split_and!; try done. lia.
  - destruct (intervals_from t0 (t1 :: times)) as [ds|] eqn:Hi; simpl.
    2:{ split; [split; intros [=]|intros f [=]]. }
    pose proof (intervals_from_length _ _ _ Hi) as Hds. simpl in Hds.
    destruct ds as [|d ds]; [done|].
    destruct (Qeq_bool _ 0).
    + split; [split; intros [=]|intros f [=]].
    + split; [split; intros [=]|]. intros f [= <-]. simpl in *.
      split_and!; try done; lia.
Qed.

Lemma X11_witness :
  let events := [keydown_event 1; keydown_event 2; keydown_event 4] in
  let f := {| typing_speed := 3 # 2; f_keystroke_intervals := [1; 2]%Q;
              error_count := 0; special_key_usage := 0 |} in
  _extract_keystroke_features (sample_clock "t0" "t1") events = Ok (Some f) ∧
  length (f_keystroke_intervals f) = (keydown_count events - 1)%nat.
Proof.
  intros events f.
  assert (_extract_keystroke_features (sample_clock "t0" "t1") events = Ok (Some f)) as Hx
    by (vm_compute; reflexivity).
  split; [exact Hx|].
  exact (proj1 (proj2 (X11_one_interval_per_pair (sample_clock "t0" "t1") events) f Hx)).
Defined.

Lemma intervals_from_equal (t : Q) (n : nat) :
  intervals_from (PNum t) (replicate n (PNum t)) = Ok (replicate n (t - t)%Q).
Proof. induction n as [|n IH]; simpl; [done|]. by rewrite IH. Qed.

Lemma py_max_list_equal (x : Q) (n : nat) : py_max_list x (replicate n x) = x.
Proof.
  unfold py_max_list. induction n as [|n IH]; simpl; [done|].
  unfold py_max at 2. by destruct (Qle_bool x x).
Qed.

(** X13: a batch whose key presses, two or more, all carry the same finite
    number as timestamp makes every interval 0 (the difference of a finite
    number with itself is exact, for ints and for floats), hence the largest
    one, and the division of the typing speed raises:
    [process_keystroke_data] answers with the error, the score 0.0 and no
    anomaly, and changes nothing beyond creating the profile of a new
    user. *)
Theorem X13_equal_timestamps_raise (B : backend) (clk : clock) (m : manager)
    (uid : string) (evs : list loc) (t : Q) (n : nat) :
  keydown_times clk 0 (deref (heap m) <$> evs) = replicate (S (S n)) (PNum t) →
  _extract_keystroke_features clk (deref (heap m) <$> evs) = Raise ZeroDivisionError ∧
  process_keystroke_data B clk m uid evs =
    ((ensure_profile B clk m uid).1,
     {| r_user_id := uid; events_processed := length evs; anomaly_score := 0;
        anomalies_detected := []; r_timestamp := clk_result clk;
        r_error := Some ZeroDivisionError |}).
Proof.
  intros Ht.
  assert (_extract_keystroke_features clk (deref (heap m) <$> evs)
          = Raise ZeroDivisionError) as Hx.
  { unfold _extract_keystroke_features.
    destruct (deref (heap m) <$> evs) as [|e events]; [done|]. rewrite Ht.
    change (replicate (S (S n)) (PNum t))
      with (PNum t :: PNum t :: replicate n (PNum t)).
    cbv beta iota.
    change (PNum t :: replicate n (PNum t)) with (replicate (S n) (PNum t)).
    rewrite (intervals_from_equal t (S n)). cbn [mbind result_bind replicate].
    rewrite py_max_list_equal.
    assert (Qeq_bool (t - t) 0 = true) as -> by (apply Qeq_bool_iff; ring).
    done. }
  split; [exact Hx|]. by rewrite (keystroke_raise B _ _ _ _ _ Hx).
Qed.

Lemma X13_witness :
  _extract_keystroke_features (sample_clock "t0" "t1")
    (deref (heap (new_manager sample_heap)) <$> [20; 21]) = Raise ZeroDivisionError.
Proof.
  apply (X13_equal_timestamps_raise sample_backend (sample_clock "t0" "t1")
           (new_manager sample_heap) "u" [20; 21] 5 0).
  vm_compute. reflexivity.
Defined.

Lemma count_events_counts (events : list dict) f :
  click_count (count_events events f) =
    (click_count f + length (filter (fun e => get_is e "type" "click" = true) events))%nat ∧
  scroll_count (count_events events f) =
    (scroll_count f + length (filter (fun e => get_is e "type" "scroll" = true) events))%nat ∧
  (click_count (count_events events f) + scroll_count (count_events events f)
   ≤ click_count f + scroll_count f + length events)%nat.
Proof.
  revert f. induction events as [|e events IH]; intros f; [simpl; lia|].
  cbn [count_events]. rewrite !filter_cons.
  destruct (get_is e "type" "click") eqn:Ec.
  - rewrite (get_is_exclusive e "type" "click" "scroll" Ec) by done.
    rewrite decide_True, decide_False by done.
    destruct (IH {| movement_speed := movement_speed f; click_count := S (click_count f);
                    scroll_count := scroll_count f;
                    f_movement_variance := f_movement_variance f |}) as (-> & -> & Hle).
    simpl in *. lia.
  - rewrite (decide_False (P := false = true)) by done.
    destruct (get_is e "type" "scroll") eqn:Es.
    + rewrite decide_True by done.
      destruct (IH {| movement_speed := movement_speed f; click_count := click_count f;
                      scroll_count := S (scroll_count f);
                      f_movement_variance := f_movement_variance f |}) as (-> & -> & Hle).
      simpl in *. lia.
    + rewrite decide_False by done.
      destruct (IH f) as (-> & -> & Hle). simpl in *. lia.
Qed.

(** X14: [_extract_mouse_features] returns the empty dict exactly for the
    empty batch; otherwise its click count is the number of click events of
    the batch, its scroll count the number of scroll events, together at
    most the size of the batch, and movement speed and variance are 0. *)
Theorem X14_mouse_counts (events : list dict) :
  (_extract_mouse_features events = None ↔ events = []) ∧
  ∀ f, _extract_mouse_features events = Some f →
       click_count f = length (filter (fun e => get_is e "type" "click" = true) events) ∧
       scroll_count f = length (filter (fun e => get_is e "type" "scroll" = true) events) ∧
       (click_count f + scroll_count f ≤ length events)%nat ∧
       movement_speed f = 0%Q ∧ f_movement_variance f = 0%Q.
Proof.
  unfold _extract_mouse_features. destruct events as [|e events].
  { split; [done|intros f [=]]. }
  split; [split; intros [=]|]. intros f [= <-].
  destruct (count_events_counts (e :: events) zero_mouse_features) as (Hc & Hs & Hle).
  destruct (count_events_fixed (e :: events) zero_mouse_features) as (Hsp & Hv).
  unfold zero_mouse_features in *. rewrite Hc, Hs in *. simpl in *.
  split_and!; try done; lia.
Qed.

Lemma X14_witness :
  let events := [click_event; keydown_event 1; click_event] in
  ∃ f, _extract_mouse_features events = Some f ∧ click_count f = 2%nat ∧
       scroll_count f = 0%nat.
Proof.
  intros events.
  destruct (_extract_mouse_features events) as [f|] eqn:E; [|vm_compute in E; discriminate E].
  exists f. split; [reflexivity|].
  destruct (proj2 (X14_mouse_counts events) f E) as (Hc & Hs & _).
  rewrite Hc, Hs. split; vm_compute; reflexivity.
Defined.

(** *** The shape of the keystroke score *)

(** X15: the score of the keystroke detector grows with the margin of the
    model: it is 0 up to the margin -0.5, the margin plus 0.5 in between, and
    1 from the margin 0.5 on; it exceeds the default threshold 0.15 exactly
    when the margin exceeds -0.35, so every margin the model counts as normal
    (0 or more) is reported as an anomaly. *)
Theorem X15_margin_score_shape (margin margin' : Q) :
  ((margin <= margin')%Q → (margin_score margin <= margin_score margin')%Q) ∧
  ((margin <= -(1 # 2))%Q → margin_score margin == 0) ∧
  ((-(1 # 2) <= margin <= 1 # 2)%Q → margin_score margin == margin + (1 # 2)) ∧
  ((1 # 2 <= margin)%Q → margin_score margin == 1) ∧
  (Qgtb (margin_score margin) (15 # 100) = true ↔ (-(35 # 100) < margin)%Q) ∧
  ((0 <= margin)%Q → Qgtb (margin_score margin) (15 # 100) = true).
Proof.
  assert (Qgtb (margin_score margin) (15 # 100) = true ↔ (-(35 # 100) < margin)%Q) as Hthr.
  { unfold Qgtb. rewrite negb_true_iff.
    destruct (margin_score_cases margin) as [[Hm Hs]|[[Hm Hs]|[Hm Hs]]]; split.
    - intros Hq%Qle_bool_false. lra.
    - intros Hq. destruct (Qle_bool _ _) eqn:E; [|done]. apply Qle_bool_iff in E. lra.
    - intros Hq%Qle_bool_false. lra.
    - intros Hq. destruct (Qle_bool _ _) eqn:E; [|done]. apply Qle_bool_iff in E. lra.
    - intros Hq%Qle_bool_false. lra.
    - intros Hq. destruct (Qle_bool _ _) eqn:E; [|done]. apply Qle_bool_iff in E. lra. }
  split_and!; [| | | |exact Hthr|intros Hq; apply Hthr; lra].
  - intros Hle.
    destruct (margin_score_cases margin) as [[Hm Hs]|[[Hm Hs]|[Hm Hs]]];
      destruct (margin_score_cases margin') as [[Hm' Hs']|[[Hm' Hs']|[Hm' Hs']]]; lra.
  - intros Hq. destruct (margin_score_cases margin) as [[Hm Hs]|[[Hm Hs]|[Hm Hs]]]; lra.
  - intros Hq. destruct (margin_score_cases margin) as [[Hm Hs]|[[Hm Hs]|[Hm Hs]]]; lra.
  - intros Hq. destruct (margin_score_cases margin) as [[Hm Hs]|[[Hm Hs]|[Hm Hs]]]; lra.
Qed.

Lemma X15_witness :
  (margin_score (-(1)) <= margin_score 0)%Q ∧ margin_score (-(1)) == 0 ∧
  margin_score 0 == 0 + (1 # 2) ∧ margin_score 2 == 1 ∧
  Qgtb (margin_score 0) (15 # 100) = true.
Proof.
  destruct (X15_margin_score_shape (-(1)) 0) as (H1 & H2 & _).
  destruct (X15_margin_score_shape 0 0) as (_ & _ & H3 & _ & _ & H6).
  destruct (X15_margin_score_shape 2 0) as (_ & _ & _ & H4 & _).
  split_and!; [apply H1|apply H2|apply H3|apply H4|apply H6]; lra.
Defined.

(** *** Replaying a batch *)

Lemma tag_events_types tag clk i (h : gmap nat dict) (evs : list nat) :
  Forall (fun d : dict => d !! "type" = Some (PStr tag))
    (deref (tag_events tag clk i h evs) <$> evs).
Proof.
  apply Forall_fmap, Forall_forall. intros l Hin. simpl.
  destruct (tag_events_in tag clk i h evs l Hin) as (j & e & _ & He).
  unfold deref. rewrite He. simpl. apply tag_event_type.
Qed.

Lemma typed_get_is (d : dict) (tag s : string) :
  d !! "type" = Some (PStr tag) → get_is d "type" s = String.eqb tag s.
Proof. intros H. unfold get_is, dict_get. by rewrite H. Qed.

(** Events that all carry a modality tag hold no key press, click or
    scroll. *)
Lemma extract_tagged clk tag (events : list dict) :
  tag = "keystroke" ∨ tag = "mouse" →
  Forall (fun d : dict => d !! "type" = Some (PStr tag)) events →
  _extract_keystroke_features clk events =
    Ok (match events with [] => None | _ => Some zero_keystroke_features end) ∧
  _extract_mouse_features events =
    match events with [] => None | _ => Some zero_mouse_features end.
Proof.
  intros Htag Hall. unfold _extract_keystroke_features, _extract_mouse_features.
  rewrite keydown_times_none, count_events_none.
  - by destruct events.
  - eapply Forall_impl; [exact Hall|]. intros d Hd. simpl.
    rewrite !(typed_get_is d tag) by done. by destruct Htag as [-> | ->].
  - eapply Forall_impl; [exact Hall|]. intros d Hd. simpl.
    rewrite (typed_get_is d tag) by done. by destruct Htag as [-> | ->].
Qed.

(** X17: a batch that was processed cannot be replayed. After
    [process_mouse_data], and after a [process_keystroke_data] whose
    extraction did not raise, the events of the batch are tagged in place,
    so extracting features from the same event objects again, by either
    extractor, finds no key press, click or scroll: no interval, typing
    speed 0, and no click or scroll count. *)
Theorem X17_processed_batch_is_spent (B : backend) (h : gmap nat dict)
    (calls : list (clock * call)) (clk clk' : clock) (uid : string) (evs : list loc) :
  let m := run B (new_manager h) calls in
  let spent (m' : manager) :=
    _extract_keystroke_features clk' (deref (heap m') <$> evs) =
      Ok (match evs with [] => None | _ => Some zero_keystroke_features end) ∧
    _extract_mouse_features (deref (heap m') <$> evs) =
      match evs with [] => None | _ => Some zero_mouse_features end in
  spent (process_mouse_data B clk m uid evs).1 ∧
  match _extract_keystroke_features clk (deref (heap m) <$> evs) with
  | Raise _ => heap (process_keystroke_data B clk m uid evs).1 = heap m
  | Ok _ => spent (process_keystroke_data B clk m uid evs).1
  end.
Proof.
  intros m spent. subst spent.
  pose proof (run_consistent B calls (new_manager h) (new_manager_consistent h)) as Hc.
  fold m in Hc.
  assert (∀ tag m', (tag = "keystroke" ∨ tag = "mouse") →
            heap m' = tag_events tag clk 0 (heap m) evs →
            _extract_keystroke_features clk' (deref (heap m') <$> evs) =
              Ok (match evs with [] => None | _ => Some zero_keystroke_features end) ∧
            _extract_mouse_features (deref (heap m') <$> evs) =
              match evs with [] => None | _ => Some zero_mouse_features end) as Hspent.
  { intros tag m' Htag Hh.
    destruct (extract_tagged clk' tag (deref (heap m') <$> evs) Htag) as [Hk Hm].
    { rewrite Hh. apply tag_events_types. }
    rewrite Hk, Hm. by destruct evs. }
  split.
  - destruct (mouse_ok B clk m uid evs Hc) as (_ & _ & Hh).
    by apply (Hspent "mouse"); [right|].
  - destruct (_extract_keystroke_features clk (deref (heap m) <$> evs)) as [f|e] eqn:Hx.
    + destruct (keystroke_ok B clk m uid evs f Hc Hx) as (_ & _ & Hh).
      by apply (Hspent "keystroke"); [left|].
    + rewrite (keystroke_raise B _ _ _ _ _ Hx). apply ensure_profile_heap.
Qed.

(** *** Sufficiency *)

Lemma update_keystroke_sufficient p f :
  _check_baseline_sufficient p = true →
  _check_baseline_sufficient (_update_keystroke_profile p f) = true.
Proof.
  rewrite !sufficient_iff. simpl. intros [Hk|Hm]; [left|by right].
  destruct (from_option f_keystroke_intervals [] f) as [|d ds]; [done|].
  case_decide; [rewrite last_n_length|]; rewrite ?length_app in *; simpl; lia.
Qed.

Lemma update_mouse_sufficient p f :
  _check_baseline_sufficient p = true →
  _check_baseline_sufficient (_update_mouse_profile p f) = true.
Proof.
  rewrite !sufficient_iff. simpl. intros [Hk|Hm]; [by left|right].
  destruct (from_option click_count 0%nat f) as [|n]; [done|].
  case_decide; [rewrite last_n_length|]; rewrite ?length_app in *; simpl; lia.
Qed.

Lemma outcome_sufficient p :
  _check_baseline_sufficient (keystroke_outcome p) = _check_baseline_sufficient p.
Proof. unfold keystroke_outcome. by repeat case_match. Qed.

Lemma sufficient_now_insert (ps : gmap string profile) m uid p :
  user_profiles m = <[uid := p]> ps → sufficient_now m uid = _check_baseline_sufficient p.
Proof. unfold sufficient_now. intros ->. by rewrite lookup_insert_eq. Qed.

Lemma sufficient_known B clk m uid :
  sufficient_now m uid = true →
  ∃ p, user_profiles m !! uid = Some p ∧ ensure_profile B clk m uid = (m, p) ∧
       _check_baseline_sufficient p = true.
Proof.
  unfold sufficient_now, ensure_profile.
  destruct (user_profiles m !! uid) as [p|]; [|done]. by exists p.
Qed.

(** X18: histories only shrink by eviction at their caps, which lie above
    the sufficiency thresholds, so in every reachable state a user whose data
    passes the sufficiency check keeps passing it after any call; and the
    next keystroke batch of that user whose extraction does not raise, be it
    empty, leaves the baseline established. *)
Theorem X18_sufficiency_is_kept (B : backend) (h : gmap nat dict)
    (calls : list (clock * call)) (uid : string) :
  let m := run B (new_manager h) calls in
  sufficient_now m uid = true →
  (∀ c, sufficient_now (step B m c) uid = true) ∧
  (∀ clk evs f,
     _extract_keystroke_features clk (deref (heap m) <$> evs) = Ok f →
     established (process_keystroke_data B clk m uid evs).1 uid = true).
Proof.
  intros m Hsuf.
  pose proof (run_consistent B calls (new_manager h) (new_manager_consistent h)) as Hc.
  fold m in Hc. split.
  - intros c. destruct (decide (uid = call_user c.2)) as [Heq|Hne].
    2:{ destruct (step_same_at B m c uid Hne) as (Hp & _).
        unfold sufficient_now in *. by rewrite Hp. }
    destruct c as [clk [u evs|u evs|u info|u]]; unfold step; cbn [fst snd call_user] in *;
      subst u; [| | |done];
      destruct (sufficient_known B clk m uid Hsuf) as (p & Hp & Hen & Hsp).
    + destruct (_extract_keystroke_features clk (deref (heap m) <$> evs)) as [f|e] eqn:Hx.
      * destruct (keystroke_ok B clk m uid evs f Hc Hx) as (Hprof & _ & _).
        rewrite (sufficient_now_insert _ _ _ _ Hprof), outcome_sufficient, Hen.
        by apply update_keystroke_sufficient.
      * rewrite (keystroke_raise B _ _ _ _ _ Hx). by rewrite Hen.
    + destruct (mouse_ok B clk m uid evs Hc) as (Hprof & _ & _).
      rewrite (sufficient_now_insert _ _ _ _ Hprof), Hen.
      by apply update_mouse_sufficient.
    + unfold process_device_data. rewrite Hen.
      repeat (case_match; cbn [fst]; try done).
      unfold sufficient_now. simpl. by rewrite lookup_insert_eq.
  - intros clk evs f Hx.
    destruct (sufficient_known B clk m uid Hsuf) as (p & Hp & Hen & Hsp).
    destruct (keystroke_ok B clk m uid evs f Hc Hx) as (Hprof & _ & _).
    rewrite (established_insert _ _ _ _ Hprof), Hen. cbn [snd].
    pose proof (update_keystroke_sufficient p f Hsp) as Hs1.
    unfold keystroke_outcome. rewrite Hs1.
    destruct (baseline_established (_update_keystroke_profile p f)) eqn:E;
      [exact E|reflexivity].
Qed.

Lemma X18_witness :
  let m := run sample_backend (new_manager sample_heap) (click_batches 20) in
  sufficient_now (step sample_backend m (sample_clock "t0" "t1", Mouse "u" [20])) "u" = true ∧
  established (process_keystroke_data sample_backend (sample_clock "t0" "t1") m "u" []).1 "u"
    = true.
Proof.
  intros m.
  pose proof (X18_sufficiency_is_kept sample_backend sample_heap (click_batches 20) "u") as H.
  cbv zeta in H. destruct H as [H1 H2]; [vm_compute; reflexivity|].
  split; [apply H1|].
  apply (H2 (sample_clock "t0" "t1") [] None). reflexivity.
Defined.

(** *** Device snapshots, again *)

Lemma py_eq_refl (v : pyval) : py_eq v v = true.
Proof.
  destruct v as [|q|s]; simpl; [done| |apply String.eqb_refl].
  apply Qeq_bool_iff. reflexivity.
Qed.

Lemma changed_same (v : pyval) : changed v v = false.
Proof. unfold changed. by rewrite py_eq_refl, andb_false_r. Qed.

Lemma device_keys B h calls clk uid :
  let p := (ensure_profile B clk (run B (new_manager h) calls) uid).2 in
  ∃ res br ip, device_patterns p !! "screen_resolution" = Some res ∧
               device_patterns p !! "browser_info" = Some br ∧
               device_patterns p !! "ip_address" = Some ip.
Proof.
  intros p.
  pose proof (ensure_profile_sound B _ clk uid (reachable_sound B h calls)) as [_ Hs].
  destruct (Hs _ _ (ensure_profile_lookup B _ clk uid))
    as [(_ & _ & _ & _ & _ & _ & _ & [res Hres] & [br Hbr] & [ip Hip]) _].
  by exists res, br, ip.
Qed.

(** X19: in every reachable state, submitting the same device snapshot a
    second time reports no anomaly for any of the three fields the snapshot
    carries, so a snapshot with all three fields reports none at all. The
    values of a snapshot are those of [pyval]: [None], strings and finite
    numbers, on which [!=] never holds of a value against itself. *)
Theorem X19_repeated_snapshot (B : backend) (h : gmap nat dict)
    (calls : list (clock * call)) (clk clk' : clock) (uid : string) (info : dict) :
  let m := run B (new_manager h) calls in
  let m1 := (process_device_data B clk m uid info).1 in
  let found := d_anomalies_detected (process_device_data B clk' m1 uid info).2 in
  (is_Some (info !! "screen_resolution") →
     device_entry "Screen resolution changed" "medium" ∉ found) ∧
  (is_Some (info !! "browser_info") →
     device_entry "Browser information changed" "low" ∉ found) ∧
  (is_Some (info !! "ip_address") →
     device_entry "IP address changed - potential location change" "high" ∉ found) ∧
  (is_Some (info !! "screen_resolution") → is_Some (info !! "browser_info") →
   is_Some (info !! "ip_address") → found = []).
Proof.
  intros m m1 found.
  destruct (device_keys B h calls clk uid) as (res & br & ip & Hres & Hbr & Hip).
  fold m in Hres, Hbr, Hip.
  pose proof (device_state B clk m uid info res br ip Hres Hbr Hip) as Hst.
  assert (m1 = run B (new_manager h) (calls ++ [(clk, Device uid info)])) as Hm1.
  { unfold run. by rewrite fold_left_app. }
  destruct (device_keys B h (calls ++ [(clk, Device uid info)]) clk' uid)
    as (res' & br' & ip' & Hres' & Hbr' & Hip').
  rewrite <- Hm1 in Hres', Hbr', Hip'.
  pose proof (device_state B clk' m1 uid info res' br' ip' Hres' Hbr' Hip') as Hst'.
  assert (device_patterns (ensure_profile B clk' m1 uid).2
          = info ∪ device_patterns (ensure_profile B clk m uid).2) as Hdp.
  { unfold ensure_profile at 1. subst m1. rewrite Hst. simpl.
    by rewrite lookup_insert_eq. }
  rewrite Hdp, update_lookup in Hres', Hbr', Hip'.
  subst found. rewrite Hst'. cbn [snd d_anomalies_detected].
  destruct (device_findings_entries res' br' ip' info) as (_ & H1 & H2 & H3 & Hall).
  assert (∀ k v', match info !! k with Some v => Some v | None =>
                    device_patterns (ensure_profile B clk m uid).2 !! k end = Some v' →
                  is_Some (info !! k) → changed v' (dict_get info k) = false) as Hsame.
  { intros k v' Hk [v Hv]. unfold dict_get. rewrite Hv in *. injection Hk as <-.
    apply changed_same. }
  assert (∀ (e : device_finding) (l : list device_finding) (b : bool),
            (e ∈ l ↔ b = true) → b = false → e ∉ l) as Hnot.
  { intros e l b Hiff -> Hin. by apply Hiff in Hin. }
  split_and!.
  - intros Hk. eapply Hnot; [exact H1|]. by eapply Hsame.
  - intros Hk. eapply Hnot; [exact H2|]. by eapply Hsame.
  - intros Hk. eapply Hnot; [exact H3|]. by eapply Hsame.
  - intros K1 K2 K3. unfold device_findings.
    by rewrite (Hsame _ _ Hres' K1), (Hsame _ _ Hbr' K2), (Hsame _ _ Hip' K3).
Qed.

Lemma X19_witness :
  let info : dict := {[ "screen_resolution" := PStr "1920x1080";
                        "browser_info" := PStr "Firefox";
                        "ip_address" := PStr "1.2.3.4" ]} in
  let clk := sample_clock "t0" "t1" in
  let m1 := (process_device_data sample_backend clk (new_manager sample_heap) "u" info).1 in
  d_anomalies_detected (process_device_data sample_backend clk m1 "u" info).2 = [].
Proof.
  intros info clk m1.
  apply (X19_repeated_snapshot sample_backend sample_heap [] clk clk "u" info);
    eexists; vm_compute; reflexivity.
Defined.

(** X20: in every reachable state [process_device_data] finds the three
    fields it compares, so its result carries no error; [device_match] is
    true whatever was found; at most three anomalies are listed; and the
    first snapshot of a user without a profile yields none, whatever it
    holds. *)
Theorem X20_device_result (B : backend) (h : gmap nat dict) (calls : list (clock * call))
    (clk : clock) (uid : string) (info : dict) :
  let m := run B (new_manager h) calls in
  let r := (process_device_data B clk m uid info).2 in
  d_error r = None ∧ device_match r = true ∧ d_user_id r = uid ∧
  (length (d_anomalies_detected r) ≤ 3)%nat ∧
  match get_user_profile m uid with
  | None => d_anomalies_detected r = []
  | Some p => True
  end.
Proof.
  intros m r.
  destruct (device_keys B h calls clk uid) as (res & br & ip & Hres & Hbr & Hip).
  fold m in Hres, Hbr, Hip.
  pose proof (device_state B clk m uid info res br ip Hres Hbr Hip) as Hst.
  subst r. rewrite Hst. cbn [snd fst d_error device_match d_user_id d_anomalies_detected].
  split_and!; try done.
  - unfold device_findings. rewrite !length_app. repeat case_match; simpl; lia.
  - unfold get_user_profile, ensure_profile in *.
    destruct (user_profiles m !! uid) as [p|] eqn:Hp; simpl in *; [done|].
    vm_compute in Hres, Hbr, Hip. by injection Hres as <-; injection Hbr as <-;
      injection Hip as <-.
Qed.

(** *** Failed batches *)

(** X21: in every reachable state the result of [process_keystroke_data]
    carries an error exactly when feature extraction raised, and then the
    call has changed nothing for a user with a profile; for a new user it
    has only created the profile, empty and without baseline. *)
Theorem X21_failed_batch_leaves_no_trace (B : backend) (h : gmap nat dict)
    (calls : list (clock * call)) (clk : clock) (uid : string) (evs : list loc) :
  let m := run B (new_manager h) calls in
  let r := process_keystroke_data B clk m uid evs in
  match _extract_keystroke_features clk (deref (heap m) <$> evs) with
  | Ok _ => r_error r.2 = None
  | Raise e =>
      r_error r.2 = Some e ∧ anomaly_score r.2 = 0%Q ∧ anomalies_detected r.2 = [] ∧
      heap r.1 = heap m ∧
      match get_user_profile m uid with
      | Some _ => r.1 = m
      | None => get_user_profile r.1 uid = Some (new_profile uid (clk_created clk)) ∧
                buffer_of r.1 uid = []
      end
  end.
Proof.
  intros m r. subst r.
  pose proof (run_consistent B calls (new_manager h) (new_manager_consistent h)) as Hc.
  fold m in Hc.
  destruct (_extract_keystroke_features clk (deref (heap m) <$> evs)) as [f|e] eqn:Hx.
  - rewrite (keystroke_state B clk m uid evs f Hc Hx).
    by repeat case_match.
  - rewrite (keystroke_raise B _ _ _ _ _ Hx). cbn [fst snd].
    split_and!; try done; [apply ensure_profile_heap|].
    unfold get_user_profile, ensure_profile, buffer_of.
    destruct (user_profiles m !! uid) as [p|] eqn:Hp; simpl; [done|].
    by rewrite !lookup_insert_eq.
Qed.
